(** * Binary versus real-valued weights on CIFAR-10: the experiment script

    A shallow embedding of [larq_approximation_viewpoint_cifar.py]:
    the pixel normalisation of [get_cifar_data], the layer stack of
    [build_model], the weight comparison [are_layers_equal] and the data flow
    of [result_stats].

    Python statements that print or raise are functions on a [World] that
    yield an [outcome]; calls into TensorFlow are modelled by the documented
    meaning of the operations (element-wise comparison with broadcasting);
    the NumPy and SciPy statistics are taken as parameters. *)

From Stdlib Require Import String Ascii Bool Arith ZArith Lia List.
From Stdlib Require Import Floats.
Import ListNotations.

#[local] Set Warnings "-inexact-float".

Local Open Scope string_scope.
Local Open Scope list_scope.

(** ** Tensors, layers and models *)

(** The floating-point types of weight variables. *)
Inductive DType := float16 | float32 | float64.

Definition dtype_eqb (a b : DType) : bool :=
  match a, b with
  | float16, float16 | float32, float32 | float64, float64 => true
  | _, _ => false
  end.

(** A weight variable: its type, its shape and its elements in row-major
    order.  The elements are IEEE-754 values ([spec_float] does not fix the
    precision, [dtype] names it). *)
Record Tensor := mkTensor {
  dtype : DType;
  shape : list nat;
  values : list spec_float
}.

(** The number of elements of a shape. *)
Definition size_of (s : list nat) : nat := fold_right Nat.mul 1 s.

(** A variable holds as many elements as its shape says. *)
Definition well_formed (t : Tensor) : Prop :=
  length (values t) = size_of (shape t).

(** What [are_layers_equal] reads of a [tk.layers.Layer]. *)
Record Layer := mkLayer {
  name : string;
  weights : list Tensor
}.

(** What [are_layers_equal] reads of a [tk.Model]. *)
Record Model := mkModel {
  layers : list Layer
}.

(** ** The world of the script

    Models are Python objects, passed by reference; [print] appends a line to
    the standard output; files are what [open] would reach.  A statement
    either yields a value or raises. *)
Definition ref := nat.

Record World := mkWorld {
  models : ref -> Model;
  files : string -> option string;
  stdout : list string
}.

(** The exception of a TensorFlow operation applied to operands it does not
    accept. *)
Inductive exn := InvalidArgumentError.

Inductive outcome (A : Type) : Type :=
| Return (a : A)
| Raise (e : exn).

Arguments Return {A} a.
Arguments Raise {A} e.

Definition Py (A : Type) : Type := World -> outcome A * World.

Definition ret {A} (a : A) : Py A := fun w => (Return a, w).

Definition bind {A B} (c : Py A) (k : A -> Py B) : Py B :=
  fun w =>
    match c w with
    | (Return a, w') => k a w'
    | (Raise e, w') => (Raise e, w')
    end.

Notation "x <- c ;; k" := (bind c (fun x => k))
  (at level 61, c at next level, right associativity).
Notation "c ;;; k" := (bind c (fun _ => k))
  (at level 61, right associativity).

(** An operation without effect on the world that may raise, used as a
    statement. *)
Definition lift {A} (r : outcome A) : Py A := fun w => (r, w).

(** The world after one more line on the standard output. *)
Definition say (s : string) (w : World) : World :=
  mkWorld (models w) (files w) (stdout w ++ [s]).

(** [print(s)] *)
Definition print (s : string) : Py unit := fun w => (Return tt, say s w).

(** [m.layers] *)
Definition get_layers (m : ref) : Py (list Layer) :=
  fun w => (Return (layers (models w m)), w).

(** ** Python and TensorFlow primitives used by [are_layers_equal] *)

(** [sub in s] on strings. *)
Fixpoint str_contains (sub s : string) : bool :=
  String.prefix sub s ||
  match s with
  | EmptyString => false
  | String _ s' => str_contains sub s'
  end.

(** [len(a) is len(b)]: identity of the two int objects that the two calls of
    [len] build.  CPython keeps one shared object for each integer from -5 to
    256 and builds a new object for every other result, so two lengths are
    the same object exactly when they are equal and at most 256. *)
Definition small_int_max : nat := 256.

Definition len_is (a b : nat) : bool :=
  ((a =? b)%nat && (a <=? small_int_max)%nat)%bool.

(** [len(a) is not len(b)] *)
Definition len_is_not (a b : nat) : bool := negb (len_is a b).

(** *** [w1 == w2] and [tf.reduce_all]

    [Variable.__eq__] runs the [Equal] operation with
    [incompatible_shape_error=False]: the operands must have one dtype (the
    operation raises otherwise); shapes are broadcast as in NumPy, aligned on
    the right, a dimension of 1 being stretched to the other operand's; two
    shapes that cannot be broadcast give the scalar [False]. *)

(** A shape brought to rank [r] by ones on the left. *)
Definition pad_shape (r : nat) (s : list nat) : list nat :=
  repeat 1 (r - length s) ++ s.

(** Two dimensions that can be paired: equal, or one of them 1. *)
Definition dims_compatible (a b : nat) : bool :=
  ((a =? b)%nat || (a =? 1)%nat || (b =? 1)%nat)%bool.

(** Two shapes of one rank that can be broadcast. *)
Definition broadcastable (s1 s2 : list nat) : bool :=
  forallb (fun d => dims_compatible (fst d) (snd d)) (combine s1 s2).

(** The first [n] consecutive blocks of [size] elements of a list. *)
Fixpoint chunks {A} (n size : nat) (xs : list A) : list (list A) :=
  match n with
  | O => []
  | S n' => firstn size xs :: chunks n' size (skipn size xs)
  end.

(** The element-wise comparison of two operands of shapes [s1] and [s2] of
    one rank, in row-major order: along a dimension both operands advance
    together when their sizes agree, and the operand of size 1 is repeated
    otherwise. *)
Fixpoint equal_elements (s1 s2 : list nat) (x1 x2 : list spec_float)
  {struct s1} : list bool :=
  match s1, s2 with
  | [], [] =>
      match x1, x2 with
      | a :: _, b :: _ => [SFeqb a b]
      | _, _ => []
      end
  | d1 :: r1, d2 :: r2 =>
      let c1 := chunks d1 (size_of r1) x1 in
      let c2 := chunks d2 (size_of r2) x2 in
      if (d1 =? d2)%nat then
        concat (map (fun q => equal_elements r1 r2 (fst q) (snd q))
                  (combine c1 c2))
      else if (d1 =? 1)%nat then
        concat (map (fun y => equal_elements r1 r2 (hd [] c1) y) c2)
      else if (d2 =? 1)%nat then
        concat (map (fun x => equal_elements r1 r2 x (hd [] c2)) c1)
      else []
  | _, _ => []
  end.

(** [w1 == w2] on two variables; the result is the list of the elements of
    the boolean tensor. *)
Definition tf_equal (w1 w2 : Tensor) : outcome (list bool) :=
  if dtype_eqb (dtype w1) (dtype w2) then
    let r := Nat.max (length (shape w1)) (length (shape w2)) in
    let s1 := pad_shape r (shape w1) in
    let s2 := pad_shape r (shape w2) in
    if broadcastable s1 s2
    then Return (equal_elements s1 s2 (values w1) (values w2))
    else Return [false]
  else Raise InvalidArgumentError.

(** [tf.reduce_all(t)], read as a Python truth value. *)
Definition tf_reduce_all (t : list bool) : bool := forallb (fun b => b) t.

(** ** [are_layers_equal]

    A loop whose body may [return] yields [Some v] when the function has
    returned [v] and [None] when the loop ran to its end. *)

(** [for w1, w2 in zip(l1.weights, l2.weights): ...] *)
Fixpoint weights_loop (ws : list (Tensor * Tensor)) : Py (option bool) :=
  match ws with
  | [] => ret None
  | (w1, w2) :: ws' =>
      eq <- lift (tf_equal w1 w2) ;;
      if negb (tf_reduce_all eq) then
        print "weights not equal" ;;; ret (Some false)
      else weights_loop ws'
  end.

(** [for l1, l2 in zip(m1_layers, m2_layers): ...] *)
Fixpoint layers_loop (ignore_bm : bool) (ls : list (Layer * Layer))
  : Py (option bool) :=
  match ls with
  | [] => ret None
  | (l1, l2) :: ls' =>
      if len_is_not (length (weights l1)) (length (weights l2)) then
        print "model weight length not equal" ;;; ret (Some false)
      else if str_contains "batch_normalization" (name l1) && ignore_bm then
        layers_loop ignore_bm ls'
      else
        r <- weights_loop (combine (weights l1) (weights l2)) ;;
        match r with
        | Some v => ret (Some v)
        | None => layers_loop ignore_bm ls'
        end
  end.

Definition are_layers_equal (m1 m2 : ref) (ignore_bm : bool) : Py bool :=
  m1_layers <- get_layers m1 ;;
  m2_layers <- get_layers m2 ;;
  if len_is_not (length m1_layers) (length m2_layers) then
    print "models layer length not equal" ;;; ret false
  else
    r <- layers_loop ignore_bm (combine m1_layers m2_layers) ;;
    match r with
    | Some v => ret v
    | None => ret true
    end.

(** *** Vocabulary for the statements about [are_layers_equal] *)

(** [bool(tf.reduce_all(w1 == w2))] *)
Definition tensors_equal (w1 w2 : Tensor) : outcome bool :=
  match tf_equal w1 w2 with
  | Return t => Return (tf_reduce_all t)
  | Raise e => Raise e
  end.

(** The test of the [continue] statement. *)
Definition skipped (ignore_bm : bool) (l1 : Layer) : bool :=
  str_contains "batch_normalization" (name l1) && ignore_bm.

(** What one step of a loop does: go on, print and return [False], or
    raise. *)
Inductive verdict :=
| Pass
| Stop (msg : string)
| Fail (e : exn).

(** The verdict of the first step that does not pass. *)
Fixpoint first_verdict {A} (f : A -> verdict) (l : list A) : verdict :=
  match l with
  | [] => Pass
  | x :: l' =>
      match f x with
      | Pass => first_verdict f l'
      | v => v
      end
  end.

(** One step of the loop over the weight variables. *)
Definition tensor_verdict (q : Tensor * Tensor) : verdict :=
  match tensors_equal (fst q) (snd q) with
  | Return true => Pass
  | Return false => Stop "weights not equal"
  | Raise e => Fail e
  end.

(** One step of the loop over the layers. *)
Definition pair_verdict (ignore_bm : bool) (p : Layer * Layer) : verdict :=
  let (l1, l2) := p in
  if len_is_not (length (weights l1)) (length (weights l2))
  then Stop "model weight length not equal"
  else if skipped ignore_bm l1 then Pass
  else first_verdict tensor_verdict (combine (weights l1) (weights l2)).

(** What a loop does for the verdict of its first step that does not
    pass. *)
Definition loop_result (v : verdict) (w : World)
  : outcome (option bool) * World :=
  match v with
  | Pass => (Return None, w)
  | Stop msg => (Return (Some false), say msg w)
  | Fail e => (Raise e, w)
  end.

(** What the function does for the verdict of its loop over the layers. *)
Definition call_result (v : verdict) (w : World) : outcome bool * World :=
  match v with
  | Pass => (Return true, w)
  | Stop msg => (Return false, say msg w)
  | Fail e => (Raise e, w)
  end.

(** The three messages of the function. *)
Definition diagnostics : list string :=
  [ "models layer length not equal";
    "model weight length not equal";
    "weights not equal" ].

(** A weight variable without [nan]. *)
Definition nan_free (t : Tensor) : Prop :=
  Forall (fun x => x <> S754_nan) (values t).

(** Two paired layers with as many weight variables each, whose values are
    either not looked at or compare equal variable by variable. *)
Definition layers_agree (ignore_bm : bool) (l1 l2 : Layer) : Prop :=
  length (weights l1) = length (weights l2) /\
  (skipped ignore_bm l1 = true \/
   Forall2 (fun t1 t2 => tensors_equal t1 t2 = Return true)
     (weights l1) (weights l2)).

(** Two paired layers whose paired weight variables have one dtype each, so
    that no comparison between them raises. *)
Definition same_dtypes (l1 l2 : Layer) : Prop :=
  Forall (fun q => dtype (fst q) = dtype (snd q))
    (combine (weights l1) (weights l2)).

(** *** Models used as concrete inputs *)

(** The binary32 numbers 1.0 and 2.0, and the binary64 numbers 1.0 and
    2.0. *)
Definition f32_one : spec_float := S754_finite false 8388608 (-23).
Definition f32_two : spec_float := S754_finite false 8388608 (-22).
Definition f64_one : spec_float := S754_finite false 4503599627370496 (-52).
Definition f64_two : spec_float := S754_finite false 4503599627370496 (-51).

(** A binary32 variable of one dimension. *)
Definition vec32 (xs : list spec_float) : Tensor :=
  mkTensor float32 [length xs] xs.

(** A binary32 kernel of shape (2, 2). *)
Definition kernel32 : Tensor :=
  mkTensor float32 [2; 2] [f32_one; f32_two; f32_two; f32_one].

(** The same numbers as a binary64 kernel. *)
Definition kernel64 : Tensor :=
  mkTensor float64 [2; 2] [f64_one; f64_two; f64_two; f64_one].

(** A dense layer without bias: one kernel. *)
Definition dense_layer : Layer := mkLayer "quant_dense" [kernel32].


(** A normalization layer without scale: beta, moving mean and moving
    variance, all set to [v]. *)
Definition bn_layer (v : spec_float) : Layer :=
  mkLayer "batch_normalization" [vec32 [v; v]; vec32 [v; v]; vec32 [v; v]].


(** A layer without weights. *)
Definition flatten_layer : Layer := mkLayer "flatten" [].

(** A world that holds [m1] at reference 0 and [m2] at every other
    reference, with no files and nothing printed yet. *)
Definition world_of (m1 m2 : Model) : World :=
  mkWorld (fun r => match r with O => m1 | S _ => m2 end) (fun _ => None) [].

(** A world that holds [m1] at reference 0, [m2] at reference 1 and [m3] at
    every other reference. *)
Definition world_of_three (m1 m2 m3 : Model) : World :=
  mkWorld (fun r => match r with O => m1 | S O => m2 | S (S _) => m3 end)
    (fun _ => None) [].

(** A stack of 257 dense layers. *)
Definition deep_model : Model := mkModel (repeat dense_layer 257).

(** 256 dense layers and a normalization layer set to [v]. *)
Definition deep_bn_model (v : spec_float) : Model :=
  mkModel (repeat dense_layer 256 ++ [bn_layer v]).

(** Small models: a dense layer, a normalization layer, a flatten layer;
    one where the normalization layer has lost variables; one without the
    normalization layer. *)
Definition small_model (v : spec_float) : Model :=
  mkModel [dense_layer; bn_layer v; flatten_layer].


Definition two_layer_model : Model := mkModel [dense_layer; flatten_layer].


(** A dense layer under another name with three one-element variables. *)
Definition three_kernels (a b c : spec_float) : Layer :=
  mkLayer "quant_dense_1" [vec32 [a]; vec32 [b]; vec32 [c]].

(** Two models whose second layers differ at their second variable; what
    follows that variable differs too. *)
Definition mismatch_left : Model :=
  mkModel [dense_layer; three_kernels f32_one f32_one f32_two; flatten_layer].

Definition mismatch_right : Model :=
  mkModel [dense_layer; three_kernels f32_one f32_two S754_nan; dense_layer].

(** A model with one [nan] in its second layer. *)
Definition nan_model : Model :=
  mkModel [dense_layer; mkLayer "quant_conv2d" [vec32 [f32_one; S754_nan]]].

(** A model whose single layer holds 257 weight variables, as a nested model
    used as a layer does. *)
Definition wide_model : Model :=
  mkModel [mkLayer "nested_model" (repeat (vec32 [f32_one]) 257)].

(** [small_model v] under the names a second construction gets. *)
Definition renamed_small_model (v : spec_float) : Model :=
  mkModel [ mkLayer "quant_dense_7" (weights dense_layer);
            mkLayer "batch_normalization_3" (weights (bn_layer v));
            mkLayer "flatten_2" [] ].

(** ** [build_model]

    The layer stack handed to [tk.models.Sequential], one constructor per
    layer class with the keyword arguments the script passes. *)

(** The keyword arguments shared by the larq layers.  [None] is Python's
    [None]: no quantizer, no constraint. *)
Record QuantArgs := mkQuantArgs {
  input_quantizer : option string;
  kernel_quantizer : option string;
  kernel_constraint : option string;
  trainable : bool
}.

Inductive LayerConfig :=
| QuantConv2D (filters : nat) (kernel_size : nat * nat) (use_bias : bool)
    (input_shape : option (list nat)) (q : QuantArgs)
| MaxPooling2D (pool_size : nat * nat)
| BatchNormalization (scale : bool)
| Flatten
| QuantDense (units : nat) (use_bias : bool) (q : QuantArgs)
| Activation (activation : string).

(** A compiled [tk.models.Sequential]. *)
Record Sequential := mkSequential {
  seq_layers : list LayerConfig;
  optimizer : string;
  loss : string;
  metrics : list string
}.

(** [model.add(layer)] *)
Definition add (model : list LayerConfig) (layer : LayerConfig)
  : list LayerConfig := model ++ [layer].

(** [model.add(layer) if cond else None] *)
Definition add_if (cond : bool) (model : list LayerConfig)
  (layer : LayerConfig) : list LayerConfig :=
  if cond then add model layer else model.

Definition build_model
  (use_binary_weights only_train_bm_layers use_bm_layers : bool)
  : Sequential :=
  let kwargs :=
    mkQuantArgs (Some "ste_sign")
      (if use_binary_weights then Some "ste_sign" else None)
      (Some "weight_clip")
      (negb only_train_bm_layers) in
  let model := [] in
  let model :=
    add model
      (QuantConv2D 32 (3, 3) false (Some [32; 32; 3])
         (mkQuantArgs None (Some "ste_sign") (Some "weight_clip")
            (negb only_train_bm_layers))) in
  let model := add model (MaxPooling2D (2, 2)) in
  let model := add_if use_bm_layers model (BatchNormalization false) in
  let model := add model (QuantConv2D 64 (3, 3) false None kwargs) in
  let model := add model (MaxPooling2D (2, 2)) in
  let model := add_if use_bm_layers model (BatchNormalization false) in
  let model := add model (QuantConv2D 64 (3, 3) false None kwargs) in
  let model := add_if use_bm_layers model (BatchNormalization false) in
  let model := add model Flatten in
  let model := add model (QuantDense 64 false kwargs) in
  let model := add_if use_bm_layers model (BatchNormalization false) in
  let model := add model (QuantDense 10 false kwargs) in
  let model := add_if use_bm_layers model (BatchNormalization false) in
  let model := add model (Activation "softmax") in
  mkSequential model "Adam" "sparse_categorical_crossentropy" ["accuracy"].

(** The larq layers of a stack are its quantized layers. *)
Definition quant_args (l : LayerConfig) : option QuantArgs :=
  match l with
  | QuantConv2D _ _ _ _ q => Some q
  | QuantDense _ _ q => Some q
  | _ => None
  end.

Definition is_quantized (l : LayerConfig) : bool :=
  match quant_args l with Some _ => true | None => false end.

Definition is_batch_norm (l : LayerConfig) : bool :=
  match l with BatchNormalization _ => true | _ => false end.

Definition is_pooling (l : LayerConfig) : bool :=
  match l with MaxPooling2D _ => true | _ => false end.

(** The layers that apply a kernel quantizer to their weights. *)
Definition binarizes_kernel (l : LayerConfig) : bool :=
  match quant_args l with
  | Some q => match kernel_quantizer q with Some _ => true | None => false end
  | None => false
  end.

(** The class of a layer. *)
Definition layer_class (l : LayerConfig) : string :=
  match l with
  | QuantConv2D _ _ _ _ _ => "QuantConv2D"
  | MaxPooling2D _ => "MaxPooling2D"
  | BatchNormalization _ => "BatchNormalization"
  | Flatten => "Flatten"
  | QuantDense _ _ _ => "QuantDense"
  | Activation _ => "Activation"
  end.

(** A layer without its quantizers, constraint and trainable flag: what is
    left decides the number and the shapes of its weight variables. *)
Definition layer_shape (l : LayerConfig) : LayerConfig :=
  match l with
  | QuantConv2D filters kernel_size use_bias input_shape _ =>
      QuantConv2D filters kernel_size use_bias input_shape
        (mkQuantArgs None None None true)
  | QuantDense units use_bias _ =>
      QuantDense units use_bias (mkQuantArgs None None None true)
  | other => other
  end.

(** ** [get_cifar_data] *)



(** An unsigned byte as a binary64 number. *)
Definition float_of_pixel (x : Z) : float := PrimFloat.of_uint63 (Uint63.of_Z x).

(** [x / 127.5 - 1] on one element, in binary64 arithmetic. *)
Definition normalize (x : Z) : float :=
  (float_of_pixel x / 127.5 - 1)%float.



(** ** [result_stats] *)

(** The NumPy and SciPy routines the statistics are delegated to, and the
    text [print] shows for a number. *)
Record StatsLib := mkStatsLib {
  np_mean : list float -> float;
  np_std : list float -> float;
  f_oneway : list (list float) -> float * float;
  float_str : float -> string
}.

Definition res : list (float * float * float) :=
  [ (0.5922, 0.1013, 0.5976);
    (0.5778, 0.1, 0.5897);
    (0.5561, 0.1, 0.588);
    (0.5657, 0.0879, 0.5985);
    (0.5557, 0.1168, 0.5905);
    (0.5838, 0.1, 0.5868);
    (0.5765, 0.0917, 0.6013);
    (0.5862, 0.1, 0.5939);
    (0.5863, 0.1, 0.6009);
    (0.5504, 0.0802, 0.5948) ]%float.

(** The body of [for r in res]. *)
Definition split_step (acc : list float * list float * list float)
  (r : float * float * float) : list float * list float * list float :=
  let '(bin, real, real_retrained) := acc in
  let '(r0, r1, r2) := r in
  (bin ++ [r0], real ++ [r1], real_retrained ++ [r2]).

Definition split_groups (table : list (float * float * float))
  : list float * list float * list float :=
  fold_left split_step table ([], [], []).

(** [print("f", f, "p", pvalue)] joins its arguments with spaces. *)
Definition significance_line (lib : StatsLib) (f pvalue : float) : string :=
  ("f " ++ float_str lib f ++ " p " ++ float_str lib pvalue)%string.

Definition result_stats (lib : StatsLib) : Py unit :=
  let '(bin, real, real_retrained) := split_groups res in
  let '(f, pvalue) := f_oneway lib [bin; real; real_retrained] in
  print "binary" ;;;
  print (float_str lib (np_mean lib bin)) ;;;
  print (float_str lib (np_std lib bin)) ;;;
  print "latent" ;;;
  print (float_str lib (np_mean lib real)) ;;;
  print (float_str lib (np_std lib real)) ;;;
  print "latent retrained" ;;;
  print (float_str lib (np_mean lib real_retrained)) ;;;
  print (float_str lib (np_std lib real_retrained)) ;;;
  print "significant" ;;;
  print (significance_line lib f pvalue).

(** *** Vocabulary for the statements about [result_stats] *)

(** A table of triples read column by column. *)
Definition groups_by_position (table : list (float * float * float))
  : list float * list float * list float :=
  (map (fun r => fst (fst r)) table,
   map (fun r => snd (fst r)) table,
   map (fun r => snd r) table).

(** The three lines printed for one group. *)
Definition group_lines (lib : StatsLib) (title : string) (g : list float)
  : list string :=
  [title; float_str lib (np_mean lib g); float_str lib (np_std lib g)].

(** The eleven lines printed for three groups. *)
Definition report (lib : StatsLib) (bin real real_retrained : list float)
  : list string :=
  group_lines lib "binary" bin ++
  group_lines lib "latent" real ++
  group_lines lib "latent retrained" real_retrained ++
  [ "significant";
    significance_line lib
      (fst (f_oneway lib [bin; real; real_retrained]))
      (snd (f_oneway lib [bin; real; real_retrained])) ].

(** *** Inputs used as concrete data *)

(** Unsigned bytes. *)
Definition is_pixel (x : Z) : Prop := (0 <= x <= 255)%Z.


(** * Properties *)

(** ** The two loops, run on any world *)

Lemma weights_loop_run (ws : list (Tensor * Tensor)) (w : World) :
  weights_loop ws w = loop_result (first_verdict tensor_verdict ws) w.
Proof.
  induction ws as [| [w1 w2] ws IH]; [reflexivity |].
  cbn [weights_loop first_verdict].
  unfold bind, lift, tensor_verdict, tensors_equal; cbn [fst snd].
  destruct (tf_equal w1 w2) as [t | e]; [| reflexivity].
  destruct (tf_reduce_all t); cbn [negb]; [exact IH | reflexivity].
Qed.

Lemma layers_loop_run (ignore_bm : bool) (ls : list (Layer * Layer))
  (w : World) :
  layers_loop ignore_bm ls w =
  loop_result (first_verdict (pair_verdict ignore_bm) ls) w.
Proof.
  induction ls as [| [l1 l2] ls IH]; [reflexivity |].
  cbn [layers_loop first_verdict pair_verdict].
  fold (skipped ignore_bm l1).
  destruct (len_is_not (length (weights l1)) (length (weights l2)));
    [reflexivity |].
  destruct (skipped ignore_bm l1); [exact IH |].
  unfold bind; rewrite weights_loop_run.
  destruct (first_verdict tensor_verdict _); cbn [loop_result];
    [exact IH | reflexivity | reflexivity].
Qed.

Lemma are_layers_equal_run (m1 m2 : ref) (ignore_bm : bool) (w : World) :
  are_layers_equal m1 m2 ignore_bm w =
  let ls1 := layers (models w m1) in
  let ls2 := layers (models w m2) in
  if len_is_not (length ls1) (length ls2)
  then (Return false, say "models layer length not equal" w)
  else call_result (first_verdict (pair_verdict ignore_bm) (combine ls1 ls2)) w.
Proof.
  unfold are_layers_equal, bind, get_layers; cbv zeta.
  destruct (len_is_not _ _); [reflexivity |].
  rewrite layers_loop_run.
  destruct (first_verdict _ _); reflexivity.
Qed.

(** ** Identity of lengths *)

Lemma len_is_true_iff (a b : nat) :
  len_is a b = true <-> a = b /\ a <= small_int_max.
Proof.
  unfold len_is.
  rewrite andb_true_iff, Nat.eqb_eq, Nat.leb_le; reflexivity.
Qed.


Lemma len_is_not_small (a b : nat) :
  a = b -> a <= small_int_max -> len_is_not a b = false.
Proof.
  intros Hab Ha; unfold len_is_not.
  rewrite (proj2 (len_is_true_iff a b) (conj Hab Ha)); reflexivity.
Qed.

Lemma len_is_not_false_iff (a b : nat) :
  len_is_not a b = false <-> a = b /\ a <= small_int_max.
Proof.
  unfold len_is_not; rewrite negb_false_iff; apply len_is_true_iff.
Qed.

(** ** Verdicts *)

Lemma first_verdict_pass_iff {A} (f : A -> verdict) (l : list A) :
  first_verdict f l = Pass <-> Forall (fun x => f x = Pass) l.
Proof.
  induction l as [| x l IH]; cbn [first_verdict].
  - split; [constructor | reflexivity].
  - destruct (f x) eqn:E.
    + rewrite IH; split; [intros H; constructor; assumption |].
      inversion 1; assumption.
    + split; [discriminate | inversion 1; congruence].
    + split; [discriminate | inversion 1; congruence].
Qed.

(** A step that does not pass keeps the loop from running to its end. *)
Lemma first_verdict_not_pass {A} (f : A -> verdict) (l : list A) (i : nat)
  (x : A) :
  nth_error l i = Some x -> f x <> Pass -> first_verdict f l <> Pass.
Proof.
  intros Hx Hf Hpass.
  rewrite first_verdict_pass_iff, Forall_forall in Hpass.
  exact (Hf (Hpass x (nth_error_In l i Hx))).
Qed.

(** The verdict of a loop is the verdict of one of its steps. *)
Lemma first_verdict_from {A} (f : A -> verdict) (l : list A) :
  first_verdict f l <> Pass ->
  exists x, In x l /\ f x = first_verdict f l.
Proof.
  induction l as [| x l IH]; cbn [first_verdict]; [congruence |].
  destruct (f x) eqn:E.
  - intros H; destruct (IH H) as (y & Hy & Hfy).
    exists y; split; [right; exact Hy | exact Hfy].
  - intros _; exists x; split; [left; reflexivity | exact E].
  - intros _; exists x; split; [left; reflexivity | exact E].
Qed.

(** A loop whose steps before position [i] do not raise and whose step [i]
    stops does stop, at that step or before. *)
Lemma first_verdict_stops {A} (f : A -> verdict) (l : list A) (i : nat)
  (x : A) (msg : string) :
  nth_error l i = Some x -> f x = Stop msg ->
  (forall k y e, k < i -> nth_error l k = Some y -> f y <> Fail e) ->
  exists msg', first_verdict f l = Stop msg'.
Proof.
  revert i; induction l as [| y l IH]; intros [| i] Hx Hstop Hbefore;
    cbn in Hx; try discriminate; cbn [first_verdict].
  - injection Hx as ->; rewrite Hstop; eexists; reflexivity.
  - destruct (f y) eqn:E.
    + apply (IH i Hx Hstop).
      intros k z e Hk Hz; apply (Hbefore (S k) z e); [lia | exact Hz].
    + eexists; reflexivity.
    + exfalso; apply (Hbefore 0 y e); [lia | reflexivity | exact E].
Qed.

(** ** The comparison of two weight variables *)

Lemma SFeqb_refl_iff (x : spec_float) : SFeqb x x = true <-> x <> S754_nan.
Proof.
  unfold SFeqb; split.
  - intros H ->; discriminate H.
  - intros H; destruct x as [s | s | | s m e]; try (now destruct s).
    + contradiction.
    + destruct s; simpl;
        rewrite Z.compare_refl, Pos.compare_cont_refl; reflexivity.
Qed.

Lemma dtype_eqb_eq (a b : DType) : dtype_eqb a b = true <-> a = b.
Proof. destruct a, b; simpl; split; congruence. Qed.

(** Operands of one dtype are compared; operands of two dtypes make the
    comparison raise. *)
Lemma tensors_equal_returns (t1 t2 : Tensor) :
  dtype t1 = dtype t2 -> exists b, tensors_equal t1 t2 = Return b.
Proof.
  intros H; unfold tensors_equal, tf_equal.
  rewrite (proj2 (dtype_eqb_eq _ _) H); cbv zeta.
  destruct (broadcastable _ _); eexists; reflexivity.
Qed.

Lemma tensors_equal_raises (t1 t2 : Tensor) :
  dtype t1 <> dtype t2 -> tensors_equal t1 t2 = Raise InvalidArgumentError.
Proof.
  intros H; unfold tensors_equal, tf_equal.
  destruct (dtype_eqb (dtype t1) (dtype t2)) eqn:E; [| reflexivity].
  apply dtype_eqb_eq in E; contradiction.
Qed.

Lemma Forall_firstn_skipn {A} (P : A -> Prop) (n : nat) (l : list A) :
  Forall P l -> Forall P (firstn n l) /\ Forall P (skipn n l).
Proof.
  intros H; rewrite <- (firstn_skipn n l) in H.
  apply Forall_app in H; exact H.
Qed.

Lemma Forall_chunks {A} (P : A -> Prop) (n size : nat) (l : list A) :
  Forall P l -> Forall (Forall P) (chunks n size l).
Proof.
  revert l; induction n as [| n IH]; intros l H; cbn [chunks]; constructor.
  - apply (Forall_firstn_skipn P size l H).
  - apply IH; apply (Forall_firstn_skipn P size l H).
Qed.

Lemma reduce_all_concat (ls : list (list bool)) :
  Forall (fun l => tf_reduce_all l = true) ls ->
  tf_reduce_all (concat ls) = true.
Proof.
  unfold tf_reduce_all.
  induction 1 as [| l ls Hl _ IH]; [reflexivity |].
  cbn [concat]; rewrite forallb_app, Hl, IH; reflexivity.
Qed.

Lemma combine_diag {A} (l : list A) :
  combine l l = map (fun x => (x, x)) l.
Proof. induction l as [| x l IH]; simpl; [| rewrite IH]; reflexivity. Qed.

(** Elements without [nan] compared with themselves, whatever the shape. *)
Lemma equal_elements_refl (s : list nat) (x : list spec_float) :
  Forall (fun a => a <> S754_nan) x ->
  tf_reduce_all (equal_elements s s x x) = true.
Proof.
  revert x; induction s as [| d r IH]; intros x Hx; cbn [equal_elements].
  - destruct x as [| a x]; [reflexivity |].
    inversion Hx; subst; cbn.
    rewrite (proj2 (SFeqb_refl_iff a)); [reflexivity | assumption].
  - cbv zeta; rewrite Nat.eqb_refl, combine_diag, map_map; cbn [fst snd].
    apply reduce_all_concat, Forall_map.
    eapply Forall_impl; [| exact (Forall_chunks _ d (size_of r) x Hx)].
    intros c Hc; apply IH; exact Hc.
Qed.

Lemma broadcastable_refl (s : list nat) : broadcastable s s = true.
Proof.
  unfold broadcastable; rewrite combine_diag, forallb_forall.
  intros d Hd; apply in_map_iff in Hd; destruct Hd as (a & <- & _).
  unfold dims_compatible; cbn [fst snd]; rewrite Nat.eqb_refl; reflexivity.
Qed.

(** A variable without [nan] is equal to itself. *)
Lemma tensors_equal_refl (t : Tensor) :
  nan_free t -> tensors_equal t t = Return true.
Proof.
  intros H; unfold tensors_equal, tf_equal.
  rewrite (proj2 (dtype_eqb_eq _ _) eq_refl); cbv zeta.
  rewrite broadcastable_refl, equal_elements_refl; [reflexivity | exact H].
Qed.

(** The comparison at the shapes of two validation runs: a one-element
    variable is broadcast against a two-element one, and a (2, 2) kernel
    cannot be broadcast against a four-element variable with the same
    numbers. *)
Lemma tensors_equal_broadcast :
  tensors_equal (vec32 [f32_one]) (vec32 [f32_one; f32_one]) = Return true /\
  tensors_equal kernel32 (vec32 [f32_one; f32_two; f32_two; f32_one]) =
    Return false /\
  tensors_equal kernel32 kernel64 = Raise InvalidArgumentError.
Proof. repeat split. Qed.

(** The same three comparisons inside one-layer models: the function
    answers [True] on the broadcast pair, [False] with its diagnostic on the
    pair of incompatible shapes, and raises on the pair of two dtypes. *)
Lemma are_layers_equal_broadcast :
  let one_layer t := mkModel [mkLayer "dense" [t]] in
  let w1 := world_of (one_layer (vec32 [f32_one]))
              (one_layer (vec32 [f32_one; f32_one])) in
  let w2 := world_of (one_layer kernel32)
              (one_layer (vec32 [f32_one; f32_two; f32_two; f32_one])) in
  let w3 := world_of (one_layer kernel32) (one_layer kernel64) in
  are_layers_equal 0 1 false w1 = (Return true, w1) /\
  are_layers_equal 0 1 false w2 =
    (Return false, say "weights not equal" w2) /\
  are_layers_equal 0 1 false w3 = (Raise InvalidArgumentError, w3).
Proof. repeat split. Qed.

(** ** Steps of the loops *)

Lemma tensor_verdict_stop (q : Tensor * Tensor) (msg : string) :
  tensor_verdict q = Stop msg -> msg = "weights not equal".
Proof.
  unfold tensor_verdict.
  destruct (tensors_equal (fst q) (snd q)) as [[|] | e]; congruence.
Qed.

Lemma tensor_verdict_fail (q : Tensor * Tensor) (e : exn) :
  tensor_verdict q = Fail e -> dtype (fst q) <> dtype (snd q).
Proof.
  unfold tensor_verdict; intros H Hd.
  destruct (tensors_equal_returns _ _ Hd) as [b Hb].
  rewrite Hb in H; destruct b; discriminate H.
Qed.

Lemma pair_verdict_stop (ignore_bm : bool) (p : Layer * Layer)
  (msg : string) :
  pair_verdict ignore_bm p = Stop msg -> In msg diagnostics.
Proof.
  destruct p as [l1 l2]; unfold pair_verdict.
  destruct (len_is_not _ _).
  - intros H; injection H as <-; simpl; auto.
  - destruct (skipped ignore_bm l1); [discriminate |].
    intros H.
    destruct (first_verdict_from tensor_verdict _
                ltac:(rewrite H; discriminate)) as (q & _ & Hq).
    rewrite H in Hq; apply tensor_verdict_stop in Hq; subst msg.
    simpl; auto.
Qed.

(** A pair of layers raises only at a comparison of two dtypes in a layer
    that is looked at. *)
Lemma pair_verdict_fail (ignore_bm : bool) (l1 l2 : Layer) (e : exn) :
  pair_verdict ignore_bm (l1, l2) = Fail e ->
  skipped ignore_bm l1 = false /\ ~ same_dtypes l1 l2.
Proof.
  unfold pair_verdict.
  destruct (len_is_not _ _); [discriminate |].
  destruct (skipped ignore_bm l1); [discriminate |].
  intros H; split; [reflexivity |].
  destruct (first_verdict_from tensor_verdict _
              ltac:(rewrite H; discriminate)) as (q & Hin & Hq).
  rewrite H in Hq; apply tensor_verdict_fail in Hq.
  intros Hsame; unfold same_dtypes in Hsame.
  rewrite Forall_forall in Hsame; exact (Hq (Hsame q Hin)).
Qed.


Lemma nth_error_combine {A B} (a : list A) (b : list B) (i : nat) x y :
  nth_error a i = Some x -> nth_error b i = Some y ->
  nth_error (combine a b) i = Some (x, y).
Proof.
  revert b i; induction a as [| a0 a IH]; intros [| b0 b] [| i] Ha Hb;
    simpl in *; try discriminate.
  - congruence.
  - apply IH; assumption.
Qed.

Lemma nth_error_combine_inv {A B} (a : list A) (b : list B) (i : nat) x y :
  nth_error (combine a b) i = Some (x, y) ->
  nth_error a i = Some x /\ nth_error b i = Some y.
Proof.
  revert b i; induction a as [| a0 a IH]; intros [| b0 b] [| i] H;
    simpl in *; try discriminate.
  - injection H as -> ->; split; reflexivity.
  - apply IH; exact H.
Qed.

(** ** A pair of layers that does not pass *)

(** Whatever comes before or after it, a pair of layers that does not pass
    keeps the function from answering [True]: it prints one of its messages
    and returns [False], or a comparison raises and nothing is printed. *)
Lemma are_layers_equal_not_true (w : World) (m1 m2 : ref) (ignore_bm : bool)
  (i : nat) (l1 l2 : Layer) :
  nth_error (layers (models w m1)) i = Some l1 ->
  nth_error (layers (models w m2)) i = Some l2 ->
  pair_verdict ignore_bm (l1, l2) <> Pass ->
  (exists msg, In msg diagnostics /\
     are_layers_equal m1 m2 ignore_bm w = (Return false, say msg w)) \/
  (exists e, are_layers_equal m1 m2 ignore_bm w = (Raise e, w)).
Proof.
  intros H1 H2 Hstop; rewrite are_layers_equal_run; cbv zeta.
  destruct (len_is_not _ _).
  - left; eexists; split; [| reflexivity]; simpl; auto.
  - pose proof (first_verdict_not_pass (pair_verdict ignore_bm) _ i (l1, l2)
                  (nth_error_combine _ _ _ _ _ H1 H2) Hstop) as Hv.
    destruct (first_verdict_from _ _ Hv) as (p & _ & Hp).
    destruct (first_verdict _ _) as [| msg | e]; [congruence | |].
    + left; exists msg; split; [| reflexivity].
      exact (pair_verdict_stop ignore_bm p msg Hp).
    + right; exists e; reflexivity.
Qed.

(** When no comparison before it raises, a pair of layers that stops the
    loop makes the function print one of its messages and return
    [False]. *)
Lemma are_layers_equal_stops (w : World) (m1 m2 : ref) (ignore_bm : bool)
  (i : nat) (l1 l2 : Layer) (msg : string) :
  nth_error (layers (models w m1)) i = Some l1 ->
  nth_error (layers (models w m2)) i = Some l2 ->
  pair_verdict ignore_bm (l1, l2) = Stop msg ->
  (forall k l1' l2', k < i ->
     nth_error (layers (models w m1)) k = Some l1' ->
     nth_error (layers (models w m2)) k = Some l2' ->
     skipped ignore_bm l1' = false -> same_dtypes l1' l2') ->
  exists msg', In msg' diagnostics /\
    are_layers_equal m1 m2 ignore_bm w = (Return false, say msg' w).
Proof.
  intros H1 H2 Hstop Hbefore; rewrite are_layers_equal_run; cbv zeta.
  destruct (len_is_not _ _).
  - eexists; split; [| reflexivity]; simpl; auto.
  - destruct (first_verdict_stops (pair_verdict ignore_bm) _ i (l1, l2) msg
                (nth_error_combine _ _ _ _ _ H1 H2) Hstop) as [msg' Hv].
    + intros k [y1 y2] e Hk Hy Hfail.
      apply nth_error_combine_inv in Hy; destruct Hy as [Hy1 Hy2].
      apply pair_verdict_fail in Hfail; destruct Hfail as [Hskip Hdiff].
      exact (Hdiff (Hbefore k y1 y2 Hk Hy1 Hy2 Hskip)).
    + assert (Hnp : first_verdict (pair_verdict ignore_bm)
                      (combine (layers (models w m1)) (layers (models w m2)))
                    <> Pass) by (rewrite Hv; discriminate).
      destruct (first_verdict_from _ _ Hnp) as (p & _ & Hp).
      rewrite Hv in *; exists msg'; split; [| reflexivity].
      exact (pair_verdict_stop ignore_bm p msg' Hp).
Qed.

(** ** What holds while the lengths are at most 256 *)

Lemma tensor_verdict_pass_iff (q : Tensor * Tensor) :
  tensor_verdict q = Pass <-> tensors_equal (fst q) (snd q) = Return true.
Proof.
  unfold tensor_verdict.
  destruct (tensors_equal (fst q) (snd q)) as [[|] | e];
    split; congruence.
Qed.

Lemma Forall_combine_iff {A B} (P : A -> B -> Prop) (l1 : list A)
  (l2 : list B) :
  length l1 = length l2 ->
  Forall (fun q => P (fst q) (snd q)) (combine l1 l2) <-> Forall2 P l1 l2.
Proof.
  revert l2; induction l1 as [| a l1 IH]; intros [| b l2] Hlen;
    simpl in Hlen; try discriminate; cbn [combine].
  - split; constructor.
  - split; inversion 1; subst; constructor; try assumption;
      apply (IH l2); try lia; assumption.
Qed.

Lemma pair_verdict_pass_iff (ignore_bm : bool) (l1 l2 : Layer) :
  pair_verdict ignore_bm (l1, l2) = Pass <->
  length (weights l1) <= small_int_max /\ layers_agree ignore_bm l1 l2.
Proof.
  unfold pair_verdict, layers_agree.
  destruct (len_is_not _ _) eqn:Elen.
  - split; [discriminate |].
    intros (Hsmall & Hlen & _).
    rewrite (len_is_not_small _ _ Hlen Hsmall) in Elen; discriminate Elen.
  - apply len_is_not_false_iff in Elen; destruct Elen as [Hlen Hsmall].
    destruct (skipped ignore_bm l1).
    + split; [intros _ | reflexivity]; auto.
    + rewrite first_verdict_pass_iff.
      rewrite <- (Forall_combine_iff
                    (fun t1 t2 => tensors_equal t1 t2 = Return true)
                    _ _ Hlen).
      split.
      * intros H; split; [exact Hsmall | split; [exact Hlen | right]].
        eapply Forall_impl; [| exact H].
        intros q; apply tensor_verdict_pass_iff.
      * intros (_ & _ & [Hskip | H]); [discriminate Hskip |].
        eapply Forall_impl; [| exact H].
        intros q; apply tensor_verdict_pass_iff.
Qed.

Lemma first_verdict_combine_pass_iff {A B} (f : A * B -> verdict)
  (l1 : list A) (l2 : list B) :
  length l1 = length l2 ->
  first_verdict f (combine l1 l2) = Pass <->
  Forall2 (fun a b => f (a, b) = Pass) l1 l2.
Proof.
  revert l2; induction l1 as [| a l1 IH]; intros [| b l2] Hlen;
    simpl in Hlen; try discriminate; cbn [combine first_verdict].
  - split; [constructor | reflexivity].
  - destruct (f (a, b)) eqn:E.
    + rewrite IH by lia; split; [intros H; constructor; assumption |].
      inversion 1; assumption.
    + split; [discriminate | inversion 1; congruence].
    + split; [discriminate | inversion 1; congruence].
Qed.

(** The layer-by-layer condition under which the function answers [True]. *)
Lemma are_layers_equal_true_cond (w : World) (m1 m2 : ref)
  (ignore_bm : bool) :
  fst (are_layers_equal m1 m2 ignore_bm w) = Return true <->
  length (layers (models w m1)) <= small_int_max /\
  Forall2 (fun l1 l2 => pair_verdict ignore_bm (l1, l2) = Pass)
    (layers (models w m1)) (layers (models w m2)).
Proof.
  rewrite are_layers_equal_run; cbv zeta.
  destruct (len_is_not _ _) eqn:Elen.
  - cbn [fst]; split; [discriminate |].
    intros [Hsmall Hall]; exfalso.
    rewrite (len_is_not_small _ _ (Forall2_length Hall) Hsmall) in Elen.
    discriminate Elen.
  - apply len_is_not_false_iff in Elen; destruct Elen as [Hlen Hsmall].
    rewrite <- (first_verdict_combine_pass_iff _ _ _ Hlen).
    destruct (first_verdict _ _); cbn [call_result fst];
      split; try tauto; try discriminate; intros [_ H]; discriminate H.
Qed.

(** Models of at most 256 layers, each of at most 256 weight variables, that
    agree layer by layer compare equal, and nothing is printed. *)
Lemma are_layers_equal_agree (w : World) (m1 m2 : ref) (ignore_bm : bool) :
  length (layers (models w m1)) <= small_int_max ->
  Forall (fun l => length (weights l) <= small_int_max)
    (layers (models w m1)) ->
  Forall2 (layers_agree ignore_bm)
    (layers (models w m1)) (layers (models w m2)) ->
  are_layers_equal m1 m2 ignore_bm w = (Return true, w).
Proof.
  intros Hn Hsmall Hagree.
  assert (Htrue : fst (are_layers_equal m1 m2 ignore_bm w) = Return true).
  { apply are_layers_equal_true_cond; split; [exact Hn |].
    clear Hn; induction Hagree as [| l1 l2 ls1 ls2 Hl _ IH]; constructor.
    - inversion Hsmall; subst; apply pair_verdict_pass_iff; tauto.
    - inversion Hsmall; subst; apply IH; assumption. }
  revert Htrue; rewrite are_layers_equal_run; cbv zeta.
  destruct (len_is_not _ _); [discriminate |].
  destruct (first_verdict _ _); cbn; try discriminate; reflexivity.
Qed.

(** ** Structure mismatches *)






(** ** Value mismatches *)

Lemma value_mismatch_stops (ignore_bm : bool) (l1 l2 : Layer) (j : nat)
  (t1 t2 : Tensor) :
  skipped ignore_bm l1 = false ->
  nth_error (weights l1) j = Some t1 ->
  nth_error (weights l2) j = Some t2 ->
  tensors_equal t1 t2 <> Return true ->
  pair_verdict ignore_bm (l1, l2) <> Pass.
Proof.
  intros Hskip H1 H2 Hne; unfold pair_verdict; rewrite Hskip.
  destruct (len_is_not _ _); [discriminate |].
  apply (first_verdict_not_pass tensor_verdict _ j (t1, t2)
           (nth_error_combine _ _ _ _ _ H1 H2)).
  rewrite tensor_verdict_pass_iff; exact Hne.
Qed.




(** ** A model compared with itself, while the lengths are at most 256 *)

Lemma layers_agree_refl (ignore_bm : bool) (l : Layer) :
  Forall nan_free (weights l) -> layers_agree ignore_bm l l.
Proof.
  intros H; split; [reflexivity | right].
  induction H as [| t ts Ht _ IH]; constructor;
    [apply tensors_equal_refl; exact Ht | exact IH].
Qed.

(** X6. A model of at most 256 layers, each of at most 256 variables, none
    of which holds [nan], is equal to itself under both settings of
    [ignore_bm]. *)
Lemma are_layers_equal_refl_small (w : World) (m : ref) (ignore_bm : bool) :
  length (layers (models w m)) <= small_int_max ->
  Forall (fun l => length (weights l) <= small_int_max)
    (layers (models w m)) ->
  Forall (fun l => Forall nan_free (weights l)) (layers (models w m)) ->
  are_layers_equal m m ignore_bm w = (Return true, w).
Proof.
  intros Hn Hsmall Hnan.
  apply are_layers_equal_agree; [exact Hn | exact Hsmall |].
  clear Hn Hsmall.
  induction Hnan as [| l ls Hl _ IH]; constructor;
    [apply layers_agree_refl; exact Hl | exact IH].
Qed.

Lemma are_layers_equal_refl_small_witness :
  let w := world_of (small_model f32_two) (mkModel []) in
  Forall (fun l => Forall nan_free (weights l)) (layers (models w 0)) /\
  are_layers_equal 0 0 true w = (Return true, w) /\
  are_layers_equal 0 0 false w = (Return true, w).
Proof.
  cbv zeta.
  assert (Hnan : Forall (fun l => Forall nan_free (weights l))
                   (layers (small_model f32_two)))
    by (repeat constructor; discriminate).
  assert (Hsmall : Forall (fun l => length (weights l) <= small_int_max)
                     (layers (small_model f32_two)))
    by (repeat constructor; unfold small_int_max; simpl; lia).
  assert (Hn : length (layers (small_model f32_two)) <= small_int_max)
    by (unfold small_int_max; simpl; lia).
  split; [exact Hnan | split].
  - exact (are_layers_equal_refl_small
             (world_of (small_model f32_two) (mkModel [])) 0 true
             Hn Hsmall Hnan).
  - exact (are_layers_equal_refl_small
             (world_of (small_model f32_two) (mkModel [])) 0 false
             Hn Hsmall Hnan).
Defined.

(** One [nan] is enough for a model to differ from itself. *)
Lemma are_layers_equal_nan_not_refl :
  let w := world_of nan_model (mkModel []) in
  are_layers_equal 0 0 false w = (Return false, say "weights not equal" w).
Proof. reflexivity. Qed.

(** ** Models of more than 256 layers *)

Lemma Forall2_repeat {A B} (R : A -> B -> Prop) (x : A) (y : B) (n : nat) :
  R x y -> Forall2 R (repeat x n) (repeat y n).
Proof.
  intros H; induction n as [| n IH]; simpl; constructor; assumption.
Qed.

Lemma dense_layer_nan_free : Forall nan_free (weights dense_layer).
Proof.
  repeat constructor; discriminate.
Qed.

Lemma deep_model_nan_free :
  Forall (fun l => Forall nan_free (weights l)) (layers deep_model).
Proof.
  apply Forall_forall; intros l Hl.
  apply repeat_spec in Hl; subst l; exact dense_layer_nan_free.
Qed.

(** C1. Two models of 257 layers each, the same layers with the same weight
    variables holding the same numbers (none of them [nan]): the claim asks
    for [True]; [are_layers_equal] prints that the numbers of layers differ
    and returns [False], because the two lengths are compared with
    [is not]. *)
Theorem are_layers_equal_identical_deep_models (ignore_bm : bool) :
  let w := world_of deep_model deep_model in
  models w 0 = models w 1 /\
  length (layers (models w 0)) = 257 /\
  Forall (fun l => Forall nan_free (weights l)) (layers (models w 0)) /\
  are_layers_equal 0 1 ignore_bm w =
    (Return false, say "models layer length not equal" w).
Proof.
  cbv zeta; split; [reflexivity | split; [reflexivity | split]].
  - exact deep_model_nan_free.
  - rewrite are_layers_equal_run; reflexivity.
Qed.

(** C2. Two models of 257 layers that differ in the values of their one
    normalization layer only, compared with [ignore_bm=True]: the claim asks
    for [True]; [are_layers_equal] prints that the numbers of layers differ
    and returns [False], because the two lengths are compared with
    [is not]. *)
Theorem are_layers_equal_deep_bn_difference :
  let w := world_of (deep_bn_model f32_one) (deep_bn_model f32_two) in
  Forall2
    (fun l1 l2 =>
       name l1 = name l2 /\
       length (weights l1) = length (weights l2) /\
       (weights l1 = weights l2 \/
        str_contains "batch_normalization" (name l1) = true))
    (layers (models w 0)) (layers (models w 1)) /\
  length (layers (models w 0)) = 257 /\
  are_layers_equal 0 1 true w =
    (Return false, say "models layer length not equal" w).
Proof.
  cbv zeta; split; [| split; [reflexivity |]].
  - apply Forall2_app.
    + apply Forall2_repeat; auto.
    + constructor; [| constructor].
      split; [reflexivity | split; [reflexivity | right; reflexivity]].
  - rewrite are_layers_equal_run; reflexivity.
Qed.

(** C10. A model of 257 layers without any [nan], compared with itself: the
    claim asks for [True] under both settings of [ignore_bm];
    [are_layers_equal] prints that the numbers of layers differ and returns
    [False] under both, because the length of the layer list is compared
    with itself by [is not]. *)
Theorem are_layers_equal_deep_model_itself (ignore_bm : bool) :
  let w := world_of deep_model (mkModel []) in
  Forall (fun l => Forall nan_free (weights l)) (layers (models w 0)) /\
  are_layers_equal 0 0 ignore_bm w =
    (Return false, say "models layer length not equal" w).
Proof.
  cbv zeta; split.
  - exact deep_model_nan_free.
  - rewrite are_layers_equal_run; reflexivity.
Qed.
(** ** The layer stack of [build_model] *)

(** The classes of the layers, with and without normalization. *)
Lemma build_model_classes (use_binary_weights only_train_bm_layers
  use_bm_layers : bool) :
  map layer_class
    (seq_layers
       (build_model use_binary_weights only_train_bm_layers use_bm_layers)) =
  if use_bm_layers then
    [ "QuantConv2D"; "MaxPooling2D"; "BatchNormalization";
      "QuantConv2D"; "MaxPooling2D"; "BatchNormalization";
      "QuantConv2D"; "BatchNormalization";
      "Flatten";
      "QuantDense"; "BatchNormalization";
      "QuantDense"; "BatchNormalization";
      "Activation" ]
  else
    [ "QuantConv2D"; "MaxPooling2D";
      "QuantConv2D"; "MaxPooling2D";
      "QuantConv2D";
      "Flatten";
      "QuantDense";
      "QuantDense";
      "Activation" ].
Proof. destruct use_bm_layers; reflexivity. Qed.

(** X16. Every quantized layer is trainable exactly when
    [only_train_bm_layers] is off, and there are five of them. *)
Lemma build_model_trainable (use_binary_weights only_train_bm_layers
  use_bm_layers : bool) :
  let ls :=
    seq_layers
      (build_model use_binary_weights only_train_bm_layers use_bm_layers) in
  length (filter is_quantized ls) = 5 /\
  forall l q, In l ls -> quant_args l = Some q ->
    trainable q = negb only_train_bm_layers.
Proof.
  cbv zeta; split; [destruct use_bm_layers; reflexivity |].
  intros l q Hl Hq.
  destruct use_bm_layers; cbn in Hl;
    repeat (destruct Hl as [<- | Hl];
            [cbn in Hq; first [discriminate Hq | injection Hq as <-; reflexivity]
            |]);
    contradiction.
Qed.

(** X17. Every quantized layer but the first takes its kernel quantizer
    from [use_binary_weights]. *)
Lemma build_model_later_kernel_quantizers (use_binary_weights
  only_train_bm_layers use_bm_layers : bool) :
  forall l q,
    In l (tl (seq_layers
                (build_model use_binary_weights only_train_bm_layers
                   use_bm_layers))) ->
    quant_args l = Some q ->
    kernel_quantizer q =
    if use_binary_weights then Some "ste_sign" else None.
Proof.
  intros l q Hl Hq.
  destruct use_bm_layers; cbn in Hl;
    repeat (destruct Hl as [<- | Hl];
            [cbn in Hq; first [discriminate Hq | injection Hq as <-; reflexivity]
            |]);
    contradiction.
Qed.

(** C3. With [use_binary_weights] off, the first layer of the stack still
    applies the [ste_sign] kernel quantizer: its keyword argument is written
    out in the call instead of being taken from [kwargs], which the other
    four quantized layers use.  So a layer binarizes its kernel under every
    combination of the flags, where the claim says none does. *)
Theorem build_model_first_layer_binarized (only_train_bm_layers
  use_bm_layers : bool) :
  exists q,
    option_map quant_args
      (hd_error (seq_layers
                   (build_model false only_train_bm_layers use_bm_layers))) =
    Some (Some q) /\
    kernel_quantizer q = Some "ste_sign" /\
    existsb binarizes_kernel
      (seq_layers (build_model false only_train_bm_layers use_bm_layers)) =
    true.
Proof.
  eexists; split; [| split].
  - destruct use_bm_layers; reflexivity.
  - reflexivity.
  - destruct use_bm_layers; reflexivity.
Qed.

(** C5. The stack holds normalization layers exactly when [use_bm_layers]
    is on: five of them then, none otherwise; each one directly follows a
    pooling layer or a quantized layer, and each of the five blocks (two
    convolutions with pooling, one convolution, two dense layers) is
    followed by one. *)
Theorem build_model_batch_norm (use_binary_weights only_train_bm_layers
  use_bm_layers : bool) :
  let ls :=
    seq_layers
      (build_model use_binary_weights only_train_bm_layers use_bm_layers) in
  ((exists l, In l ls /\ is_batch_norm l = true) <-> use_bm_layers = true) /\
  length (filter is_batch_norm ls) = (if use_bm_layers then 5 else 0) /\
  (forall i l, nth_error ls i = Some l -> is_batch_norm l = true ->
     exists j p, i = S j /\ nth_error ls j = Some p /\
       (is_pooling p || is_quantized p) = true) /\
  map is_batch_norm ls =
    (if use_bm_layers then
       [ false; false; true; false; false; true; false; true; false;
         false; true; false; true; false ]
     else repeat false 9).
Proof.
  cbv zeta; split; [| split; [| split]].
  - split.
    + intros (l & Hl & Hbn).
      destruct use_bm_layers; [reflexivity |].
      cbn in Hl;
        repeat (destruct Hl as [<- | Hl]; [discriminate Hbn |]);
        contradiction.
    + intros ->; exists (BatchNormalization false); split;
        [cbn; auto | reflexivity].
  - destruct use_bm_layers; reflexivity.
  - intros i l Hi Hbn.
    destruct use_bm_layers;
      do 15 (destruct i as [| i]; cbn in Hi;
             [first [ discriminate Hi
                    | injection Hi as <-;
                      first [ discriminate Hbn
                            | eexists _, _;
                              split; [reflexivity |
                              split; reflexivity] ] ]
             |]);
      destruct i; discriminate Hi.
  - destruct use_bm_layers; reflexivity.
Qed.

(** ** The pixel normalisation *)






(** ** The statistics *)

Lemma fold_split_step (table : list (float * float * float))
  (bin real real_retrained : list float) :
  fold_left split_step table (bin, real, real_retrained) =
  (bin ++ map (fun r => fst (fst r)) table,
   real ++ map (fun r => snd (fst r)) table,
   real_retrained ++ map (fun r => snd r) table).
Proof.
  revert bin real real_retrained.
  induction table as [| [[r0 r1] r2] table IH]; intros bin real real_retrained.
  - simpl; rewrite !app_nil_r; reflexivity.
  - simpl; rewrite IH, <- !app_assoc; reflexivity.
Qed.

(** The loop over any table splits it by position. *)
Lemma split_groups_by_position (table : list (float * float * float)) :
  split_groups table = groups_by_position table.
Proof.
  unfold split_groups; rewrite fold_split_step; reflexivity.
Qed.

(** [result_stats] on any world: eleven more lines, nothing else changed. *)
Lemma result_stats_run (lib : StatsLib) (w : World) :
  result_stats lib w =
  let '(bin, real, real_retrained) := groups_by_position res in
  (Return tt, mkWorld (models w) (files w)
                (stdout w ++ report lib bin real real_retrained)).
Proof.
  unfold result_stats; rewrite split_groups_by_position.
  cbn [groups_by_position res map fst snd].
  destruct (f_oneway lib _) as [f pvalue] eqn:E.
  unfold report, group_lines; rewrite E.
  cbn [bind print say ret models files stdout fst snd app].
  unfold bind, print, say; cbn [models files stdout].
  rewrite <- !app_assoc; reflexivity.
Qed.

(** C8. [result_stats] reads the literal table only: the three groups are
    the first, second and third components of the ten triples, in order, ten
    numbers each; the lines printed are the mean and the standard deviation
    of each group and the one-way ANOVA of the three groups; the files of the
    world are neither read (no line depends on them) nor written. *)
Theorem result_stats_groups (lib : StatsLib) (w : World) :
  let bin := map (fun r => fst (fst r)) res in
  let real := map (fun r => snd (fst r)) res in
  let real_retrained := map (fun r => snd r) res in
  split_groups res = (bin, real, real_retrained) /\
  length res = 10 /\
  length bin = 10 /\ length real = 10 /\ length real_retrained = 10 /\
  result_stats lib w =
    (Return tt, mkWorld (models w) (files w)
                  (stdout w ++ report lib bin real real_retrained)) /\
  files (snd (result_stats lib w)) = files w.
Proof.
  cbv zeta.
  split; [apply split_groups_by_position |].
  repeat (split; [reflexivity |]).
  split; [exact (result_stats_run lib w) |].
  rewrite result_stats_run; reflexivity.
Qed.


(** * Further properties of [are_layers_equal] *)

(** ** When the answer is [True] *)

(** X1. [are_layers_equal] answers [True] exactly when the first model has
    at most 256 layers, the second has as many, and every paired layer has
    at most 256 weight variables, as many on both sides, that are either
    skipped (normalization layer under [ignore_bm]) or for which
    [tf.reduce_all(w1 == w2)] is true variable by variable. *)
Theorem are_layers_equal_true_iff (w : World) (m1 m2 : ref)
  (ignore_bm : bool) :
  fst (are_layers_equal m1 m2 ignore_bm w) = Return true <->
  length (layers (models w m1)) <= small_int_max /\
  Forall2
    (fun l1 l2 =>
       length (weights l1) <= small_int_max /\
       length (weights l1) = length (weights l2) /\
       (skipped ignore_bm l1 = true \/
        Forall2 (fun t1 t2 => tensors_equal t1 t2 = Return true)
          (weights l1) (weights l2)))
    (layers (models w m1)) (layers (models w m2)).
Proof.
  rewrite are_layers_equal_true_cond.
  split; intros [Hn Hall]; (split; [exact Hn |]);
    (eapply Forall2_impl; [| exact Hall]); intros l1 l2 H;
    apply pair_verdict_pass_iff; exact H.
Qed.

(** X2. Whatever the two models are, [are_layers_equal] leaves the models
    and the files alone; it prints nothing when it answers [True], exactly
    one of its three diagnostics when it answers [False], and nothing when
    a comparison raises. *)
Theorem are_layers_equal_output (w : World) (m1 m2 : ref)
  (ignore_bm : bool) :
  exists out,
    snd (are_layers_equal m1 m2 ignore_bm w) =
      mkWorld (models w) (files w) (stdout w ++ out) /\
    match fst (are_layers_equal m1 m2 ignore_bm w) with
    | Return true => out = []
    | Return false => exists msg, In msg diagnostics /\ out = [msg]
    | Raise _ => out = []
    end.
Proof.
  assert (Hsame : w = mkWorld (models w) (files w) (stdout w ++ []))
    by (destruct w; simpl; rewrite app_nil_r; reflexivity).
  rewrite are_layers_equal_run; cbv zeta.
  destruct (len_is_not _ _).
  - eexists; split; [reflexivity |]; cbn [fst].
    eexists; split; [| reflexivity]; simpl; auto.
  - destruct (first_verdict _ _) as [| msg | e] eqn:Hv;
      cbn [call_result fst snd].
    + exists []; split; [exact Hsame | reflexivity].
    + exists [msg]; split; [reflexivity |].
      exists msg; split; [| reflexivity].
      destruct (first_verdict_from (pair_verdict ignore_bm) _
                  ltac:(rewrite Hv; discriminate)) as (p & _ & Hp).
      rewrite Hv in Hp; exact (pair_verdict_stop ignore_bm p msg Hp).
    + exists []; split; [exact Hsame | reflexivity].
Qed.

(** ** Lengths above 256 *)

(** X3. A first model of more than 256 layers is reported as having another
    number of layers than any second model, itself included: the answer is
    [False] with the layer-length diagnostic. *)
Theorem are_layers_equal_over_256_layers (w : World) (m1 m2 : ref)
  (ignore_bm : bool) :
  small_int_max < length (layers (models w m1)) ->
  are_layers_equal m1 m2 ignore_bm w =
    (Return false, say "models layer length not equal" w).
Proof.
  intros Hbig; rewrite are_layers_equal_run; cbv zeta.
  destruct (len_is_not _ _) eqn:E; [reflexivity |].
  apply len_is_not_false_iff in E; lia.
Qed.

Lemma are_layers_equal_over_256_layers_witness :
  let w := world_of deep_model (small_model f32_one) in
  small_int_max < length (layers (models w 0)) /\
  are_layers_equal 0 1 true w =
    (Return false, say "models layer length not equal" w).
Proof.
  cbv zeta; split.
  - unfold small_int_max; simpl; lia.
  - apply (are_layers_equal_over_256_layers
             (world_of deep_model (small_model f32_one)) 0 1 true).
    unfold small_int_max; simpl; lia.
Defined.

(** X4. A paired layer with more than 256 weight variables on the first
    side keeps the function from answering [True], even when the two sides
    are the same layer and even when the layer is a normalization layer
    under [ignore_bm]: the function returns [False], unless a comparison in
    an earlier layer raises, and it returns [False] whenever the variables
    compared in the earlier layers have one dtype pair by pair. *)
Theorem are_layers_equal_over_256_weights (w : World) (m1 m2 : ref)
  (ignore_bm : bool) (i : nat) (l1 l2 : Layer) :
  nth_error (layers (models w m1)) i = Some l1 ->
  nth_error (layers (models w m2)) i = Some l2 ->
  small_int_max < length (weights l1) ->
  (fst (are_layers_equal m1 m2 ignore_bm w) = Return false \/
   exists e, fst (are_layers_equal m1 m2 ignore_bm w) = Raise e) /\
  ((forall k l1' l2', k < i ->
      nth_error (layers (models w m1)) k = Some l1' ->
      nth_error (layers (models w m2)) k = Some l2' ->
      skipped ignore_bm l1' = false -> same_dtypes l1' l2') ->
   fst (are_layers_equal m1 m2 ignore_bm w) = Return false).
Proof.
  intros H1 H2 Hbig.
  assert (Hstop : pair_verdict ignore_bm (l1, l2) =
                  Stop "model weight length not equal").
  { unfold pair_verdict.
    destruct (len_is_not _ _) eqn:E; [reflexivity |].
    apply len_is_not_false_iff in E; lia. }
  split.
  - destruct (are_layers_equal_not_true w m1 m2 ignore_bm i l1 l2 H1 H2
                ltac:(rewrite Hstop; discriminate))
      as [(msg & _ & ->) | (e & ->)];
      [left; reflexivity | right; exists e; reflexivity].
  - intros Hbefore.
    destruct (are_layers_equal_stops w m1 m2 ignore_bm i l1 l2 _ H1 H2 Hstop
                Hbefore) as (msg & _ & ->).
    reflexivity.
Qed.

Lemma are_layers_equal_over_256_weights_witness :
  let w := world_of wide_model wide_model in
  small_int_max <
    length (weights
              (mkLayer "nested_model" (repeat (vec32 [f32_one]) 257))) /\
  fst (are_layers_equal 0 0 false w) = Return false.
Proof.
  cbv zeta; split.
  - unfold small_int_max; simpl; lia.
  - apply (are_layers_equal_over_256_weights
             (world_of wide_model wide_model) 0 0 false 0
             (mkLayer "nested_model" (repeat (vec32 [f32_one]) 257))
             (mkLayer "nested_model" (repeat (vec32 [f32_one]) 257)));
      [reflexivity | reflexivity | unfold small_int_max; simpl; lia |].
    intros k l1' l2' Hk; lia.
Defined.

(** ** Variables of one shape *)

Lemma combine_skipn {A B} (n : nat) (l1 : list A) (l2 : list B) :
  combine (skipn n l1) (skipn n l2) = skipn n (combine l1 l2).
Proof.
  revert l1 l2; induction n as [| n IH]; intros [| a l1] [| b l2];
    simpl; try reflexivity.
  - destruct (skipn n l1); reflexivity.
  - apply IH.
Qed.

Lemma pad_shape_same_rank (s : list nat) : pad_shape (length s) s = s.
Proof. unfold pad_shape; rewrite Nat.sub_diag; reflexivity. Qed.

(** The blocks of two operands of one shape are compared block by block. *)
Lemma equal_chunks (F : list spec_float -> list spec_float -> list bool)
  (n d : nat) (x1 x2 : list spec_float) :
  (forall c1 c2, length c1 = n -> length c2 = n ->
     F c1 c2 = map (fun q => SFeqb (fst q) (snd q)) (combine c1 c2)) ->
  length x1 = d * n -> length x2 = d * n ->
  concat (map (fun q => F (fst q) (snd q))
            (combine (chunks d n x1) (chunks d n x2))) =
  map (fun q => SFeqb (fst q) (snd q)) (combine x1 x2).
Proof.
  intros HF; revert x1 x2; induction d as [| d IH]; intros x1 x2 H1 H2.
  - destruct x1, x2; try discriminate; reflexivity.
  - cbn [chunks combine map concat fst snd].
    rewrite HF by (rewrite length_firstn; lia).
    rewrite IH by (rewrite length_skipn; lia).
    rewrite <- combine_firstn, combine_skipn, <- map_app, firstn_skipn.
    reflexivity.
Qed.

(** On two well-formed operands of one shape, the comparison pairs the
    elements in order. *)
Lemma equal_elements_same_shape (s : list nat) (x1 x2 : list spec_float) :
  length x1 = size_of s -> length x2 = size_of s ->
  equal_elements s s x1 x2 =
  map (fun q => SFeqb (fst q) (snd q)) (combine x1 x2).
Proof.
  revert x1 x2; induction s as [| d r IH]; intros x1 x2 H1 H2;
    cbn [equal_elements].
  - destruct x1 as [| a [| ? ?]], x2 as [| b [| ? ?]];
      try discriminate; reflexivity.
  - cbv zeta; rewrite Nat.eqb_refl.
    apply equal_chunks; [exact IH | exact H1 | exact H2].
Qed.

(** [w1 == w2] on two well-formed variables of one dtype and one shape is
    the element-wise comparison. *)
Lemma tf_equal_same_shape (t1 t2 : Tensor) :
  dtype t1 = dtype t2 -> shape t1 = shape t2 ->
  well_formed t1 -> well_formed t2 ->
  tf_equal t1 t2 =
  Return (map (fun q => SFeqb (fst q) (snd q))
            (combine (values t1) (values t2))).
Proof.
  unfold well_formed, tf_equal; intros Hd Hs H1 H2.
  rewrite (proj2 (dtype_eqb_eq _ _) Hd), <- Hs; cbv zeta.
  rewrite Nat.max_id, pad_shape_same_rank, broadcastable_refl.
  rewrite equal_elements_same_shape; [reflexivity | exact H1 |].
  rewrite Hs; exact H2.
Qed.

Lemma compare_with_nan (x1 x2 : list spec_float) :
  length x1 = length x2 -> In S754_nan x1 ->
  tf_reduce_all (map (fun q => SFeqb (fst q) (snd q)) (combine x1 x2)) =
  false.
Proof.
  unfold tf_reduce_all.
  revert x2; induction x1 as [| a x1 IH]; intros [| b x2] Hlen Hin;
    simpl in Hlen; try discriminate; [contradiction |].
  cbn [combine map forallb fst snd].
  destruct Hin as [-> | Hin]; [reflexivity |].
  rewrite (IH x2) by (try lia; assumption).
  apply andb_false_r.
Qed.

(** A [nan] in a variable compared with a variable of the same shape:
    [tf.reduce_all(w1 == w2)] is not true. *)
Lemma tensors_equal_nan (t1 t2 : Tensor) :
  shape t1 = shape t2 -> well_formed t1 -> well_formed t2 ->
  In S754_nan (values t1) ->
  tensors_equal t1 t2 <> Return true.
Proof.
  intros Hs H1 H2 Hnan; unfold tensors_equal.
  destruct (dtype_eqb (dtype t1) (dtype t2)) eqn:Hd.
  - apply dtype_eqb_eq in Hd.
    rewrite (tf_equal_same_shape t1 t2 Hd Hs H1 H2).
    rewrite compare_with_nan; [discriminate | | exact Hnan].
    unfold well_formed in *; congruence.
  - unfold tf_equal; rewrite Hd; discriminate.
Qed.

(** ** [nan] *)

(** X7. A [nan] in a weight variable of a layer that is looked at, paired
    with a variable of the same shape (the variable itself when a model is
    compared with itself), keeps [are_layers_equal] from answering [True]:
    it returns [False] after one diagnostic, or a comparison raises. *)
Theorem are_layers_equal_nan (w : World) (m1 m2 : ref) (ignore_bm : bool)
  (i j : nat) (l1 l2 : Layer) (t1 t2 : Tensor) :
  nth_error (layers (models w m1)) i = Some l1 ->
  nth_error (layers (models w m2)) i = Some l2 ->
  skipped ignore_bm l1 = false ->
  nth_error (weights l1) j = Some t1 ->
  nth_error (weights l2) j = Some t2 ->
  shape t1 = shape t2 -> well_formed t1 -> well_formed t2 ->
  In S754_nan (values t1) ->
  (exists msg, In msg diagnostics /\
     are_layers_equal m1 m2 ignore_bm w = (Return false, say msg w)) \/
  (exists e, are_layers_equal m1 m2 ignore_bm w = (Raise e, w)).
Proof.
  intros H1 H2 Hskip Ht1 Ht2 Hs Hw1 Hw2 Hnan.
  apply (are_layers_equal_not_true w m1 m2 ignore_bm i l1 l2 H1 H2).
  apply (value_mismatch_stops ignore_bm l1 l2 j t1 t2 Hskip Ht1 Ht2).
  exact (tensors_equal_nan t1 t2 Hs Hw1 Hw2 Hnan).
Qed.

Lemma are_layers_equal_nan_witness :
  let w := world_of nan_model nan_model in
  (well_formed (vec32 [f32_one; S754_nan]) /\
   In S754_nan (values (vec32 [f32_one; S754_nan]))) /\
  ((exists msg, In msg diagnostics /\
      are_layers_equal 0 0 true w = (Return false, say msg w)) \/
   (exists e, are_layers_equal 0 0 true w = (Raise e, w))).
Proof.
  cbv zeta; split; [split; [reflexivity | simpl; auto] |].
  apply (are_layers_equal_nan (world_of nan_model nan_model) 0 0 true 1 0
           (mkLayer "quant_conv2d" [vec32 [f32_one; S754_nan]])
           (mkLayer "quant_conv2d" [vec32 [f32_one; S754_nan]])
           (vec32 [f32_one; S754_nan]) (vec32 [f32_one; S754_nan]));
    try reflexivity.
  simpl; auto.
Defined.

(** X21. A paired layer that is looked at and holds a pair of variables for
    which [tf.reduce_all(w1 == w2)] is false keeps the function from
    answering [True], whatever the other layers and variables are and
    whatever the sizes: it returns [False] after one diagnostic, or a
    comparison raises. *)
Lemma are_layers_equal_value_mismatch (w : World) (m1 m2 : ref)
  (ignore_bm : bool) (i j : nat) (l1 l2 : Layer) (t1 t2 : Tensor) :
  nth_error (layers (models w m1)) i = Some l1 ->
  nth_error (layers (models w m2)) i = Some l2 ->
  skipped ignore_bm l1 = false ->
  nth_error (weights l1) j = Some t1 ->
  nth_error (weights l2) j = Some t2 ->
  tensors_equal t1 t2 = Return false ->
  (exists msg, In msg diagnostics /\
     are_layers_equal m1 m2 ignore_bm w = (Return false, say msg w)) \/
  (exists e, are_layers_equal m1 m2 ignore_bm w = (Raise e, w)).
Proof.
  intros H1 H2 Hskip Ht1 Ht2 Hne.
  apply (are_layers_equal_not_true w m1 m2 ignore_bm i l1 l2 H1 H2).
  apply (value_mismatch_stops ignore_bm l1 l2 j t1 t2 Hskip Ht1 Ht2).
  rewrite Hne; discriminate.
Qed.

Lemma are_layers_equal_value_mismatch_witness :
  let w := world_of mismatch_left mismatch_right in
  tensors_equal (vec32 [f32_one]) (vec32 [f32_two]) = Return false /\
  ((exists msg, In msg diagnostics /\
      are_layers_equal 0 1 true w = (Return false, say msg w)) \/
   (exists e, are_layers_equal 0 1 true w = (Raise e, w))).
Proof.
  cbv zeta; split; [reflexivity |].
  apply (are_layers_equal_value_mismatch
           (world_of mismatch_left mismatch_right) 0 1 true 1 1
           (three_kernels f32_one f32_one f32_two)
           (three_kernels f32_one f32_two S754_nan)
           (vec32 [f32_one]) (vec32 [f32_two])); reflexivity.
Defined.

(** ** The two settings of [ignore_bm] *)

Lemma skipped_off (l : Layer) : skipped false l = false.
Proof. unfold skipped; apply andb_false_r. Qed.

Lemma pair_verdict_ignore (l1 l2 : Layer) :
  pair_verdict false (l1, l2) = Pass -> pair_verdict true (l1, l2) = Pass.
Proof.
  rewrite !pair_verdict_pass_iff.
  intros (Hsmall & Hlen & [Hskip | Hval]).
  - rewrite skipped_off in Hskip; discriminate Hskip.
  - split; [exact Hsmall | split; [exact Hlen | right; exact Hval]].
Qed.

(** X8. Ignoring the normalization layers never turns [True] into [False]
    or into an exception: two models that compare equal with
    [ignore_bm=False] compare equal with [ignore_bm=True]. *)
Theorem are_layers_equal_ignore_bm_weaker (w : World) (m1 m2 : ref) :
  fst (are_layers_equal m1 m2 false w) = Return true ->
  fst (are_layers_equal m1 m2 true w) = Return true.
Proof.
  rewrite !are_layers_equal_true_cond.
  intros [Hn Hall]; split; [exact Hn |].
  eapply Forall2_impl; [| exact Hall].
  intros l1 l2; apply pair_verdict_ignore.
Qed.

Lemma are_layers_equal_ignore_bm_weaker_witness :
  let w := world_of (small_model f32_one) (renamed_small_model f32_one) in
  fst (are_layers_equal 0 1 false w) = Return true /\
  fst (are_layers_equal 0 1 true w) = Return true.
Proof.
  cbv zeta; split; [reflexivity |].
  apply (are_layers_equal_ignore_bm_weaker
           (world_of (small_model f32_one) (renamed_small_model f32_one)) 0 1).
  reflexivity.
Defined.

(** ** Exchange of the two models *)

Lemma SFeqb_sym (x y : spec_float) : SFeqb x y = SFeqb y x.
Proof.
  unfold SFeqb.
  destruct x as [sx | sx | | sx mx ex], y as [sy | sy | | sy my ey];
    try reflexivity; try (destruct sx; reflexivity);
    try (destruct sy; reflexivity);
    try (destruct sx, sy; reflexivity).
  assert (Hm : Pos.compare_cont Eq my mx =
               CompOpp (Pos.compare_cont Eq mx my))
    by (symmetry; exact (Pos.compare_cont_antisym mx my Eq)).
  destruct sx, sy; simpl; try reflexivity;
    rewrite (Z.compare_antisym ex ey), Hm;
    destruct (ex ?= ey)%Z; simpl; try reflexivity;
    destruct (Pos.compare_cont Eq mx my); reflexivity.
Qed.

Lemma map_combine_swap {A B C} (f : A * B -> C) (l1 : list A) (l2 : list B) :
  map f (combine l1 l2) = map (fun q => f (snd q, fst q)) (combine l2 l1).
Proof.
  revert l2; induction l1 as [| a l1 IH]; intros [| b l2]; simpl;
    try reflexivity.
  rewrite IH; reflexivity.
Qed.

Lemma equal_elements_sym (s1 s2 : list nat) (x1 x2 : list spec_float) :
  equal_elements s1 s2 x1 x2 = equal_elements s2 s1 x2 x1.
Proof.
  revert s2 x1 x2; induction s1 as [| d1 r1 IH]; intros [| d2 r2] x1 x2;
    cbn [equal_elements]; try reflexivity.
  - destruct x1 as [| a x1], x2 as [| b x2]; try reflexivity.
    rewrite SFeqb_sym; reflexivity.
  - cbv zeta; rewrite (Nat.eqb_sym d2 d1).
    destruct (d1 =? d2)%nat eqn:E12.
    + rewrite map_combine_swap; cbn [fst snd].
      f_equal; apply map_ext; intros q; apply IH.
    + destruct (d1 =? 1)%nat eqn:E1, (d2 =? 1)%nat eqn:E2;
        try reflexivity.
      * apply Nat.eqb_eq in E1, E2; apply Nat.eqb_neq in E12; lia.
      * f_equal; apply map_ext; intros q; apply IH.
      * f_equal; apply map_ext; intros q; apply IH.
Qed.

Lemma dims_compatible_sym (a b : nat) :
  dims_compatible a b = dims_compatible b a.
Proof.
  unfold dims_compatible; rewrite (Nat.eqb_sym a b).
  destruct (b =? a)%nat, (a =? 1)%nat, (b =? 1)%nat; reflexivity.
Qed.

Lemma broadcastable_sym (s1 s2 : list nat) :
  broadcastable s1 s2 = broadcastable s2 s1.
Proof.
  unfold broadcastable.
  revert s2; induction s1 as [| a s1 IH]; intros [| b s2];
    cbn [combine forallb fst snd]; try reflexivity.
  rewrite dims_compatible_sym, IH; reflexivity.
Qed.

Lemma tensors_equal_sym (t1 t2 : Tensor) :
  tensors_equal t1 t2 = tensors_equal t2 t1.
Proof.
  unfold tensors_equal, tf_equal.
  assert (Hd : dtype_eqb (dtype t1) (dtype t2) =
               dtype_eqb (dtype t2) (dtype t1))
    by (destruct (dtype t1), (dtype t2); reflexivity).
  rewrite Hd, (Nat.max_comm (length (shape t1))); cbv zeta.
  rewrite (broadcastable_sym (pad_shape _ (shape t1))).
  rewrite (equal_elements_sym (pad_shape _ (shape t1))).
  reflexivity.
Qed.

Lemma first_verdict_combine_swap {A B} (f : A * B -> verdict)
  (g : B * A -> verdict) (l1 : list A) (l2 : list B) :
  (forall a b, f (a, b) = g (b, a)) ->
  first_verdict f (combine l1 l2) = first_verdict g (combine l2 l1).
Proof.
  intros Hfg; revert l2; induction l1 as [| a l1 IH]; intros [| b l2];
    cbn [combine first_verdict]; try reflexivity.
  rewrite Hfg, IH; reflexivity.
Qed.

Lemma len_is_not_sym (a b : nat) : len_is_not a b = len_is_not b a.
Proof.
  unfold len_is_not, len_is; rewrite (Nat.eqb_sym b a).
  destruct (a =? b)%nat eqn:E; [| reflexivity].
  apply Nat.eqb_eq in E; subst; reflexivity.
Qed.

Lemma pair_verdict_off_sym (l1 l2 : Layer) :
  pair_verdict false (l1, l2) = pair_verdict false (l2, l1).
Proof.
  unfold pair_verdict; rewrite !skipped_off, len_is_not_sym.
  destruct (len_is_not _ _); [reflexivity |].
  apply first_verdict_combine_swap; intros t1 t2.
  unfold tensor_verdict; cbn [fst snd].
  rewrite tensors_equal_sym; reflexivity.
Qed.

(** X9. With [ignore_bm=False] the answer does not depend on the order of
    the two models. *)
Theorem are_layers_equal_off_symmetric (w : World) (m1 m2 : ref) :
  fst (are_layers_equal m1 m2 false w) =
  fst (are_layers_equal m2 m1 false w).
Proof.
  rewrite !are_layers_equal_run; cbv zeta.
  rewrite len_is_not_sym.
  destruct (len_is_not _ _); [reflexivity |].
  rewrite (first_verdict_combine_swap (pair_verdict false)
             (pair_verdict false) _ _ pair_verdict_off_sym).
  reflexivity.
Qed.

(** ** Layer names *)

Lemma prefix_iff (s1 s2 : string) :
  String.prefix s1 s2 = true <-> exists post, s2 = (s1 ++ post)%string.
Proof.
  revert s2; induction s1 as [| a s1 IH]; intros [| b s2]; simpl.
  - split; [intros _; exists ""; reflexivity | reflexivity].
  - split; [intros _; eexists; reflexivity | reflexivity].
  - split; [discriminate | intros [post H]; discriminate H].
  - destruct (ascii_dec a b) as [-> | Hab].
    + rewrite IH; split; intros [post H]; exists post; congruence.
    + split; [discriminate | intros [post H]; congruence].
Qed.

Lemma str_contains_iff (sub s : string) :
  str_contains sub s = true <->
  exists pre post, s = (pre ++ sub ++ post)%string.
Proof.
  induction s as [| c s IH]; cbn [str_contains]; rewrite orb_true_iff.
  - split.
    + intros [H | H]; [| discriminate H].
      apply prefix_iff in H; destruct H as [post H].
      exists "", post; exact H.
    + intros ([| c pre] & post & H); [| discriminate H].
      left; apply prefix_iff; exists post; exact H.
  - rewrite IH, prefix_iff; split.
    + intros [[post H] | (pre & post & H)].
      * exists "", post; exact H.
      * exists (String c pre), post; simpl; rewrite H; reflexivity.
    + intros ([| c' pre] & post & H).
      * left; exists post; exact H.
      * right; exists pre, post; simpl in H; congruence.
Qed.

(** X11. A layer is skipped exactly when [ignore_bm] is on and the name of
    the first model's layer holds [batch_normalization] somewhere: at the
    start, as in the numbered names [batch_normalization_3], or after a
    prefix. *)
Theorem skipped_iff (ignore_bm : bool) (l : Layer) :
  skipped ignore_bm l = true <->
  ignore_bm = true /\
  exists pre post,
    name l = (pre ++ "batch_normalization" ++ post)%string.
Proof.
  unfold skipped; rewrite andb_true_iff, str_contains_iff; tauto.
Qed.

Lemma first_verdict_second_weights (ignore_bm : bool)
  (ls1 ls2 ls3 : list Layer) :
  map weights ls2 = map weights ls3 ->
  first_verdict (pair_verdict ignore_bm) (combine ls1 ls2) =
  first_verdict (pair_verdict ignore_bm) (combine ls1 ls3).
Proof.
  revert ls2 ls3; induction ls1 as [| l1 ls1 IH];
    intros [| l2 ls2] [| l3 ls3] Hw; simpl in Hw; try discriminate;
    try reflexivity.
  injection Hw as Hhead Htail.
  cbn [combine first_verdict].
  assert (Hp : pair_verdict ignore_bm (l1, l2) =
               pair_verdict ignore_bm (l1, l3))
    by (unfold pair_verdict; rewrite Hhead; reflexivity).
  rewrite Hp, (IH ls2 ls3 Htail); reflexivity.
Qed.

(** X10. The names of the second model's layers are never looked at: two
    second models whose layers hold the same weight variables (dtype, shape
    and elements) get the same answer. *)
Theorem are_layers_equal_second_names (w : World) (m1 m2 m3 : ref)
  (ignore_bm : bool) :
  map weights (layers (models w m2)) = map weights (layers (models w m3)) ->
  fst (are_layers_equal m1 m2 ignore_bm w) =
  fst (are_layers_equal m1 m3 ignore_bm w).
Proof.
  intros Hw; rewrite !are_layers_equal_run; cbv zeta.
  assert (Hlen : length (layers (models w m2)) =
                 length (layers (models w m3)))
    by (rewrite <- (length_map weights), Hw, length_map; reflexivity).
  rewrite Hlen, (first_verdict_second_weights ignore_bm _ _ _ Hw).
  reflexivity.
Qed.

Lemma are_layers_equal_second_names_witness :
  let w := world_of_three (small_model f32_one) (small_model f32_two)
             (renamed_small_model f32_two) in
  map weights (layers (models w 1)) = map weights (layers (models w 2)) /\
  fst (are_layers_equal 0 1 false w) = fst (are_layers_equal 0 2 false w).
Proof.
  cbv zeta; split; [reflexivity |].
  apply (are_layers_equal_second_names
           (world_of_three (small_model f32_one) (small_model f32_two)
              (renamed_small_model f32_two)) 0 1 2 false).
  reflexivity.
Defined.

(** ** Copied weights and retrained normalization layers *)

Lemma same_weights_agree (ignore_bm : bool) (l1 l2 : Layer) :
  weights l1 = weights l2 -> Forall nan_free (weights l1) ->
  layers_agree ignore_bm l1 l2.
Proof.
  intros Hw Hnan; split; [rewrite Hw; reflexivity | right].
  rewrite <- Hw; clear Hw.
  induction Hnan as [| t ts Ht _ IH]; constructor;
    [apply tensors_equal_refl; exact Ht | exact IH].
Qed.

(** X13. After the weight variables of one model have been copied into
    another (dtype, shape and elements), as [set_weights(get_weights())]
    does between two models of one architecture, the two compare equal under
    both settings of [ignore_bm], whatever the layers of the second are
    called: this holds for at most 256 layers of at most 256 variables each,
    none holding a [nan], and nothing is printed. *)
Theorem are_layers_equal_same_weights (w : World) (m1 m2 : ref)
  (ignore_bm : bool) :
  map weights (layers (models w m1)) = map weights (layers (models w m2)) ->
  length (layers (models w m1)) <= small_int_max ->
  Forall (fun l => length (weights l) <= small_int_max)
    (layers (models w m1)) ->
  Forall (fun l => Forall nan_free (weights l)) (layers (models w m1)) ->
  are_layers_equal m1 m2 ignore_bm w = (Return true, w).
Proof.
  intros Hw Hn Hsmall Hnan.
  apply are_layers_equal_agree; [exact Hn | exact Hsmall |].
  clear Hn Hsmall.
  revert Hw Hnan.
  generalize (layers (models w m1)) as ls1, (layers (models w m2)) as ls2.
  induction ls1 as [| l1 ls1 IH]; intros [| l2 ls2] Hw Hnan;
    simpl in Hw; try discriminate; constructor.
  - inversion Hnan; subst.
    apply same_weights_agree; [congruence | assumption].
  - inversion Hnan; subst; apply IH; [congruence | assumption].
Qed.

Lemma are_layers_equal_same_weights_witness :
  let w := world_of (small_model f32_two) (renamed_small_model f32_two) in
  map weights (layers (models w 0)) = map weights (layers (models w 1)) /\
  are_layers_equal 0 1 false w = (Return true, w).
Proof.
  cbv zeta; split; [reflexivity |].
  apply (are_layers_equal_same_weights
           (world_of (small_model f32_two) (renamed_small_model f32_two))
           0 1 false).
  - reflexivity.
  - unfold small_int_max; simpl; lia.
  - repeat constructor; unfold small_int_max; simpl; lia.
  - repeat constructor; discriminate.
Defined.

(** X12. With [ignore_bm=True], two models of at most 256 layers whose
    paired layers hold as many weight variables (at most 256) and differ only
    where the first model's layer is a normalization layer compare equal:
    the other layers hold the same variables (dtype, shape and elements,
    without [nan]), and the values, shapes and dtypes of the normalization
    layers play no part. *)
Theorem are_layers_equal_ignores_bn_values (w : World) (m1 m2 : ref) :
  length (layers (models w m1)) <= small_int_max ->
  Forall2
    (fun l1 l2 =>
       length (weights l1) <= small_int_max /\
       length (weights l1) = length (weights l2) /\
       (str_contains "batch_normalization" (name l1) = true \/
        (weights l1 = weights l2 /\ Forall nan_free (weights l1))))
    (layers (models w m1)) (layers (models w m2)) ->
  are_layers_equal m1 m2 true w = (Return true, w).
Proof.
  intros Hn Hall.
  apply are_layers_equal_agree; [exact Hn | |].
  - clear Hn; induction Hall as [| l1 l2 ls1 ls2 Hl _ IH]; constructor;
      [tauto | exact IH].
  - eapply Forall2_impl; [| exact Hall].
    intros l1 l2 (_ & Hlen & [Hbn | [Hw Hnan]]).
    + split; [exact Hlen | left].
      unfold skipped; rewrite Hbn; reflexivity.
    + apply same_weights_agree; assumption.
Qed.

Lemma are_layers_equal_ignores_bn_values_witness :
  let w := world_of (small_model f32_one) (small_model S754_nan) in
  fst (are_layers_equal 0 1 false w) = Return false /\
  are_layers_equal 0 1 true w = (Return true, w).
Proof.
  cbv zeta; split; [reflexivity |].
  apply (are_layers_equal_ignores_bn_values
           (world_of (small_model f32_one) (small_model S754_nan)) 0 1).
  - unfold small_int_max; simpl; lia.
  - constructor; [| constructor; [| constructor; [| constructor]]].
    + split; [unfold small_int_max; simpl; lia | split; [reflexivity |]].
      right; split; [reflexivity | repeat constructor; discriminate].
    + split; [unfold small_int_max; simpl; lia | split; [reflexivity |]].
      left; reflexivity.
    + split; [unfold small_int_max; simpl; lia | split; [reflexivity |]].
      right; split; [reflexivity | constructor].
Defined.

(** * Further properties of [build_model] *)

(** X14. The first two flags change no layer class, size, bias or input
    shape, and no compile setting: the stacks built with one value of
    [use_bm_layers] have the same architecture (9 layers without
    normalization, 14 with), so the weights of one fit the other as [main]
    needs for [set_weights]. *)
Theorem build_model_architecture (a b a' b' use_bm_layers : bool) :
  map layer_shape (seq_layers (build_model a b use_bm_layers)) =
  map layer_shape (seq_layers (build_model a' b' use_bm_layers)) /\
  length (seq_layers (build_model a b use_bm_layers)) =
    (if use_bm_layers then 14 else 9) /\
  optimizer (build_model a b use_bm_layers) =
    optimizer (build_model a' b' use_bm_layers) /\
  loss (build_model a b use_bm_layers) =
    loss (build_model a' b' use_bm_layers) /\
  metrics (build_model a b use_bm_layers) =
    metrics (build_model a' b' use_bm_layers).
Proof.
  destruct use_bm_layers; repeat split; reflexivity.
Qed.

(** X15. Under every combination of the flags, also with
    [use_binary_weights] off, the four quantized layers after the first
    binarize their inputs with [ste_sign]; the first one takes the images as
    they are; and all five clip their kernels with [weight_clip]. *)
Theorem build_model_input_quantizers (use_binary_weights
  only_train_bm_layers use_bm_layers : bool) :
  let ls :=
    seq_layers
      (build_model use_binary_weights only_train_bm_layers use_bm_layers) in
  (exists q, option_map quant_args (hd_error ls) = Some (Some q) /\
             input_quantizer q = None) /\
  (forall l q, In l (tl ls) -> quant_args l = Some q ->
     input_quantizer q = Some "ste_sign") /\
  (forall l q, In l ls -> quant_args l = Some q ->
     kernel_constraint q = Some "weight_clip").
Proof.
  cbv zeta; split; [| split].
  - eexists; split; [destruct use_bm_layers; reflexivity | reflexivity].
  - intros l q Hl Hq.
    destruct use_bm_layers; cbn in Hl;
      repeat (destruct Hl as [<- | Hl];
              [cbn in Hq;
               first [discriminate Hq | injection Hq as <-; reflexivity]
              |]);
      contradiction.
  - intros l q Hl Hq.
    destruct use_bm_layers; cbn in Hl;
      repeat (destruct Hl as [<- | Hl];
              [cbn in Hq;
               first [discriminate Hq | injection Hq as <-; reflexivity]
              |]);
      contradiction.
Qed.

(** * Further properties of [get_cifar_data] *)

Lemma normalize_all_pairs :
  forallb
    (fun m =>
       forallb
         (fun n =>
            implb (m <? n)%nat
              (normalize (Z.of_nat m) <? normalize (Z.of_nat n))%float)
         (seq 0 256))
    (seq 0 256) = true.
Proof. vm_compute; reflexivity. Qed.

(** X18. The normalisation keeps the order of the pixel values strictly:
    a darker unsigned byte gives a smaller binary64 number, so no two pixel
    values are merged by the rounding. *)
Theorem normalize_increasing (x y : Z) :
  is_pixel x -> is_pixel y -> (x < y)%Z ->
  (normalize x <? normalize y)%float = true.
Proof.
  intros [Hx0 Hx1] [Hy0 Hy1] Hxy.
  pose proof normalize_all_pairs as H.
  rewrite forallb_forall in H.
  specialize (H (Z.to_nat x)); rewrite forallb_forall in H.
  assert (Hin : forall z, (0 <= z <= 255)%Z -> In (Z.to_nat z) (seq 0 256))
    by (intros z Hz; apply in_seq; lia).
  specialize (H (Hin x (conj Hx0 Hx1)) (Z.to_nat y) (Hin y (conj Hy0 Hy1))).
  rewrite !Z2Nat.id in H by assumption.
  destruct (Nat.ltb_spec (Z.to_nat x) (Z.to_nat y)) as [_ | Hge];
    [exact H | lia].
Qed.

Lemma normalize_increasing_witness :
  (is_pixel 127 /\ is_pixel 128 /\ (127 < 128)%Z) /\
  (normalize 127 <? normalize 128)%float = true.
Proof.
  assert (H127 : is_pixel 127) by (unfold is_pixel; lia).
  assert (H128 : is_pixel 128) by (unfold is_pixel; lia).
  assert (Hlt : (127 < 128)%Z) by lia.
  split; [split; [exact H127 | split; [exact H128 | exact Hlt]] |].
  exact (normalize_increasing 127 128 H127 H128 Hlt).
Defined.

Lemma normalize_all_signs :
  forallb
    (fun n =>
       Bool.eqb (normalize (Z.of_nat n) <? 0)%float (n <=? 127)%nat &&
       Bool.eqb (0 <? normalize (Z.of_nat n))%float (128 <=? n)%nat)
    (seq 0 256) = true.
Proof. vm_compute; reflexivity. Qed.

(** X19. No pixel value is sent to zero: the values up to 127 become
    negative numbers and the values from 128 on become positive numbers, so
    the sign of every normalised pixel is defined. *)
Theorem normalize_sign (x : Z) :
  is_pixel x ->
  ((normalize x <? 0)%float = true <-> (x <= 127)%Z) /\
  ((0 <? normalize x)%float = true <-> (128 <= x)%Z).
Proof.
  intros [Hx0 Hx1].
  pose proof normalize_all_signs as H.
  rewrite forallb_forall in H.
  specialize (H (Z.to_nat x)).
  rewrite Z2Nat.id in H by exact Hx0.
  assert (Hin : In (Z.to_nat x) (seq 0 256)) by (apply in_seq; lia).
  apply H in Hin; clear H.
  apply andb_true_iff in Hin; destruct Hin as [Hneg Hpos].
  apply Bool.eqb_prop in Hneg; apply Bool.eqb_prop in Hpos.
  rewrite Hneg, Hpos, Nat.leb_le, Nat.leb_le; lia.
Qed.

Lemma normalize_sign_witness :
  is_pixel 128 /\
  ((normalize 128 <? 0)%float = true <-> (128 <= 127)%Z) /\
  ((0 <? normalize 128)%float = true <-> (128 <= 128)%Z).
Proof.
  assert (H128 : is_pixel 128) by (unfold is_pixel; lia).
  split; [exact H128 | exact (normalize_sign 128 H128)].
Defined.

(** * Further properties of [result_stats] *)

(** X20. The accumulation loop keeps the rows in their order and aligned:
    for any table each group is as long as the table, and the [i]-th number
    of the first, second and third group is the first, second and third
    component of the [i]-th triple. *)
Theorem split_groups_rows (table : list (float * float * float)) :
  let '(bin, real, real_retrained) := split_groups table in
  length bin = length table /\
  length real = length table /\
  length real_retrained = length table /\
  forall i r0 r1 r2,
    nth_error table i = Some (r0, r1, r2) ->
    nth_error bin i = Some r0 /\
    nth_error real i = Some r1 /\
    nth_error real_retrained i = Some r2.
Proof.
  rewrite split_groups_by_position; unfold groups_by_position.
  rewrite !length_map; repeat split; try reflexivity;
    rewrite nth_error_map, H; reflexivity.
Qed.


(** * Further witnesses *)

Lemma build_model_later_kernel_quantizers_witness :
  let q := mkQuantArgs (Some "ste_sign") None (Some "weight_clip") false in
  In (QuantDense 10 false q) (tl (seq_layers (build_model false true true))) /\
  kernel_quantizer q = None.
Proof.
  cbv zeta.
  assert (Hin : In (QuantDense 10 false
                      (mkQuantArgs (Some "ste_sign") None
                         (Some "weight_clip") false))
                   (tl (seq_layers (build_model false true true))))
    by (cbn; tauto).
  split; [exact Hin |].
  exact (build_model_later_kernel_quantizers false true true
           (QuantDense 10 false
              (mkQuantArgs (Some "ste_sign") None (Some "weight_clip") false))
           (mkQuantArgs (Some "ste_sign") None (Some "weight_clip") false)
           Hin eq_refl).
Defined.
